(** * Wave-Modules: the example agent module ([example_agent/module.py])

    A shallow embedding of [Module.process], [Module._parse_query] and the
    six operation handlers, and the properties of the dispatch contract.

    Modelling conventions.
    - A Python [str] is a [string]; the model covers ASCII text, one
      character per code point, so [len] is [String.length].
    - A [dict] is an association list in insertion order.
    - The file system is a finite map from path to text; [write_text]
      stores the text, unless the file system refuses the path (a path
      that names a directory, such as one that ends in [..]): then it
      raises and the files are unchanged.
    - The system clock is an oracle: its [n]-th reading is [clock n], in
      whole seconds, and the world counts the readings taken so far.
    - The imported collaborators [get_file_path], [extract_file_reference]
      and [is_url] are parameters (record [Env]); each may return a value
      or raise.
    - Code that may raise lives in the monad [M]; a raise keeps the effects
      that happened before it.
    - The [print] calls write progress lines to the console, which is not
      part of the state. *)

From Stdlib Require Import ZArith Ascii String List Lia Bool.
From Stdlib Require Import DecimalString DecimalZ.
From stdpp Require Import gmap strings.
Import ListNotations.

Local Open Scope list_scope.
Local Open Scope string_scope.

(** ** Python string primitives *)

Module PyStr.

Definition nl : string := String (ascii_of_nat 10) "".

Definition code (c : ascii) : N := N_of_ascii c.

(** [str.isspace] on one ASCII character: TAB, LF, VT, FF, CR, the four
    separators FS, GS, RS, US, and the space. *)
Definition is_space (c : ascii) : bool :=
  ((9 <=? code c)%N && (code c <=? 13)%N)
  || ((28 <=? code c)%N && (code c <=? 32)%N).

Definition is_upper (c : ascii) : bool :=
  (65 <=? code c)%N && (code c <=? 90)%N.

Definition is_lower (c : ascii) : bool :=
  (97 <=? code c)%N && (code c <=? 122)%N.

Definition lower_char (c : ascii) : ascii :=
  if is_upper c then ascii_of_N (code c + 32) else c.

Definition upper_char (c : ascii) : ascii :=
  if is_lower c then ascii_of_N (code c - 32) else c.

(** [s.lower()] *)
Fixpoint lower (s : string) : string :=
  match s with
  | EmptyString => EmptyString
  | String c s' => String (lower_char c) (lower s')
  end.

(** [s.capitalize()]: first character upper-cased, the rest lower-cased. *)
Definition capitalize (s : string) : string :=
  match s with
  | EmptyString => EmptyString
  | String c s' => String (upper_char c) (lower s')
  end.

(** [s.lstrip()] *)
Fixpoint lstrip (s : string) : string :=
  match s with
  | EmptyString => EmptyString
  | String c s' => if is_space c then lstrip s' else s
  end.

(** [s.rstrip()] *)
Fixpoint rstrip (s : string) : string :=
  match s with
  | EmptyString => EmptyString
  | String c s' =>
      match rstrip s' with
      | EmptyString => if is_space c then EmptyString else String c EmptyString
      | r => String c r
      end
  end.

(** [s.strip()] *)
Definition strip (s : string) : string := rstrip (lstrip s).

(** [sep in s] for a one-character [sep]. *)
Fixpoint contains_char (sep : ascii) (s : string) : bool :=
  match s with
  | EmptyString => false
  | String c s' => Ascii.eqb c sep || contains_char sep s'
  end.

(** [s.split(sep, 1)] for a one-character [sep]: a list of one or two
    parts. *)
Fixpoint split1 (sep : ascii) (s : string) : list string :=
  match s with
  | EmptyString => [EmptyString]
  | String c s' =>
      if Ascii.eqb c sep then [EmptyString; s']
      else match split1 sep s' with
           | p :: rest => String c p :: rest
           | [] => [String c EmptyString]
           end
  end.

(** Removal of every occurrence of a non-empty [pat], scanning from the
    left; [skip] counts the characters of the current occurrence still to
    be dropped. *)
Fixpoint remove_from (pat s : string) (skip : nat) : string :=
  match s with
  | EmptyString => EmptyString
  | String c s' =>
      match skip with
      | S k => remove_from pat s' k
      | O => if String.prefix pat s
             then remove_from pat s' (String.length pat - 1)
             else String c (remove_from pat s' 0)
      end
  end.

(** [s.replace(pat, "")] *)
Definition remove_all (pat s : string) : string :=
  match pat with
  | EmptyString => s
  | _ => remove_from pat s 0
  end.

(** [sep.join(parts)] *)
Definition join (sep : string) (parts : list string) : string :=
  String.concat sep parts.

(** [str(n)] for an [int]. *)
Definition str_int (z : Z) : string := NilZero.string_of_int (Z.to_int z).

(** Truth value of a string: non-empty. *)
Definition truthy (s : string) : bool :=
  match s with EmptyString => false | _ => true end.

(** All characters are white space. *)
Definition all_space (s : string) : bool :=
  forallb is_space (list_ascii_of_string s).

(** The first character of [s], if any, is not white space. *)
Definition starts_clean (s : string) : Prop :=
  match s with
  | EmptyString => True
  | String c _ => is_space c = false
  end.

(** The last character of [s], if any, is not white space. *)
Fixpoint ends_clean (s : string) : Prop :=
  match s with
  | EmptyString => True
  | String c EmptyString => is_space c = false
  | String _ s' => ends_clean s'
  end.

End PyStr.

(** ** [pathlib]: the final component of a POSIX path *)

Module PyPath.

(** The parts of a path text between slashes. *)
Fixpoint split_slash (s : string) : list string :=
  match s with
  | EmptyString => [EmptyString]
  | String c s' =>
      if Ascii.eqb c "/" then EmptyString :: split_slash s'
      else match split_slash s' with
           | p :: rest => String c p :: rest
           | [] => [String c EmptyString]
           end
  end.

(** A part that [PurePosixPath] keeps: neither empty nor a single dot. *)
Definition kept (part : string) : bool :=
  negb (String.eqb part "") && negb (String.eqb part ".").

(** [Path(p).name]: the last kept part, or the empty string. *)
Definition name (p : string) : string :=
  List.last (List.filter kept (split_slash p)) "".

End PyPath.

(** ** Values, exceptions, the world *)

(** The Python values that occur in the results. *)
#[warnings="-register-all"]
Inductive pyval : Type :=
| VNone
| VBool (b : bool)
| VInt (z : Z)
| VStr (s : string)
| VList (l : list pyval)
| VTuple (l : list pyval)
| VDict (d : list (string * pyval)).

Abbreviation dict := (list (string * pyval)).

(** [d.get(k)] *)
Fixpoint dict_get (k : string) (d : dict) : option pyval :=
  match d with
  | [] => None
  | (k', v) :: d' => if String.eqb k' k then Some v else dict_get k d'
  end.

(** [list(d.keys())] *)
Definition dict_keys {A : Type} (d : list (string * A)) : list string :=
  map fst d.

(** [k in d] *)
Definition dict_mem (k : string) (d : dict) : bool :=
  match dict_get k d with Some _ => true | None => false end.

(** The second argument of every handler: [None] or a mapping from module
    name to that module's data. *)
Abbreviation context := (option dict).

(** [bool(context)] *)
Definition context_truthy (ctx : context) : bool :=
  match ctx with
  | Some (_ :: _) => true
  | _ => false
  end.

(** The structured content record built in step 4 of [process]. *)
Record content_record : Type := {
  c_file_ref : string;
  c_file_path : string;
  c_is_url : bool;
  c_query : string
}.

(** The first argument of every handler: a plain string or the record. *)
Inductive content : Type :=
| CStr (s : string)
| CRec (r : content_record).

(** What a handler returns: a mapping with an [output] string and the
    handler's own fields. *)
Record OperationResult : Type := {
  output : string;
  extra : dict
}.

Definition result_dict (r : OperationResult) : dict :=
  ("output", VStr (output r)) :: extra r.

(** Exceptions (all of them subclasses of [Exception]). *)
Inductive exn : Type :=
| ValueError (msg : string)
| ForeignError (msg : string).

(** [str(e)] *)
Definition exn_str (e : exn) : string :=
  match e with
  | ValueError msg => msg
  | ForeignError msg => msg
  end.

Inductive outcome (A : Type) : Type :=
| Return (a : A)
| Raise (e : exn).
Arguments Return {A} a.
Arguments Raise {A} e.

Inductive dir_type : Type := Files | Temp | Downloads.

Record world : Type := {
  files : gmap string string;
  ticks : nat
}.

(** The collaborators, the clock and the file system's answer to a
    write.  A collaborator is a function of its arguments: it returns a
    value or raises, and does not change the files.  [write_refused path]
    is the exception that writing at [path] raises, if any. *)
Record Env : Type := {
  get_file_path : string -> dir_type -> outcome string;
  extract_file_reference : string -> outcome (option string);
  is_url : string -> outcome bool;
  clock : nat -> Z;
  strftime : Z -> string;
  write_refused : string -> option exn
}.

(** ** The monad of effects *)

Definition M (A : Type) : Type := world -> outcome A * world.

Definition ret {A : Type} (a : A) : M A := fun w => (Return a, w).

Definition raise {A : Type} (e : exn) : M A := fun w => (Raise e, w).

Definition bind {A B : Type} (m : M A) (k : A -> M B) : M B :=
  fun w =>
    match m w with
    | (Return a, w') => k a w'
    | (Raise e, w') => (Raise e, w')
    end.

(** A call of a collaborator. *)
Definition call {A : Type} (o : outcome A) : M A := fun w => (o, w).

Declare Scope monad_scope.
Delimit Scope monad_scope with monad.
Notation "x <- m ;; k" := (bind m (fun x => k))
  (at level 100, m at next level, right associativity) : monad_scope.
Notation "m ;;; k" := (bind m (fun _ => k))
  (at level 100, right associativity) : monad_scope.

(** [int(time.time())]: one reading of the clock. *)
Definition time_time (E : Env) : M Z :=
  fun w => (Return (clock E (ticks w)),
            {| files := files w; ticks := S (ticks w) |}).

(** [time.strftime('%Y-%m-%d %H:%M:%S')]: one reading, formatted. *)
Definition time_strftime (E : Env) : M string :=
  fun w => (Return (strftime E (clock E (ticks w))),
            {| files := files w; ticks := S (ticks w) |}).

(** [path.write_text(text)] *)
Definition write_text (E : Env) (path text : string) : M unit :=
  fun w =>
    match write_refused E path with
    | Some e => (Raise e, w)
    | None => (Return tt,
               {| files := <[path := text]> (files w); ticks := ticks w |})
    end.

(** ** The module *)

Section Module.

Variable E : Env.

Local Open Scope monad_scope.

Import PyStr.

(** Truth value of an optional string ([None] and the empty string are
    false). *)
Definition ref_truthy (o : option string) : bool :=
  match o with
  | Some s => truthy s
  | None => false
  end.

(** [content if isinstance(content, str) else content.get("query", "")] *)
Definition content_text (c : content) : string :=
  match c with
  | CStr s => s
  | CRec r => c_query r
  end.

(** [content.get("file_ref") if isinstance(content, dict) else None] *)
Definition content_file_ref (c : content) : option string :=
  match c with
  | CStr _ => None
  | CRec r => Some (c_file_ref r)
  end.

(** The triple [(source, query, is_remote)] of [_analyze_data] and
    [_extract_info]. *)
Definition content_source (c : content) : string * string * bool :=
  match c with
  | CRec r => (c_file_ref r, c_query r, c_is_url r)
  | CStr s => ("direct_input", s, false)
  end.

Definition remote_or_local (is_remote : bool) : string :=
  if is_remote then "remote" else "local".

(** The loop over [context.items()]: for every module whose data is a
    mapping, the keys among [probes] that it has, in the order of
    [probes]. *)
Definition scan_context (probes : list string) (ctx : context)
  : list (string * string) :=
  if context_truthy ctx then
    flat_map
      (fun item : string * pyval =>
         match snd item with
         | VDict module_data =>
             flat_map (fun key => if dict_mem key module_data
                                  then [(key, fst item)] else [])
                      probes
         | _ => []
         end)
      (match ctx with Some d => d | None => [] end)
  else [].

(** [_process_text] *)
Definition _process_text (c : content) (ctx : context) : M OperationResult :=
  let text_content := content_text c in
  let file_ref := content_file_ref c in
  temp_file <- call (get_file_path E "processed_text.txt" Temp) ;;
  now <- time_strftime E ;;
  write_text E temp_file
    (strip (nl ++ "Processed at " ++ now ++ nl
            ++ "Source: "
            ++ (match file_ref with
                | Some f => if truthy f then f else "Direct input"
                | None => "Direct input"
                end) ++ nl
            ++ "Content: " ++ text_content ++ nl
            ++ "        ")) ;;;
  ret {| output := "Processed "
                   ++ (if ref_truthy file_ref then "file" else "text")
                   ++ " and saved to " ++ PyPath.name temp_file;
         extra :=
           [("source", VStr (match file_ref with
                             | Some f => if truthy f then f else "direct_input"
                             | None => "direct_input"
                             end));
            ("length", VInt (Z.of_nat (String.length text_content)));
            ("temp_file", VStr temp_file);
            ("context_used", VBool (context_truthy ctx))] |}.

(** The messages collected by [_analyze_data] from the context. *)
Definition analyze_summary (ctx : context) : list string :=
  map (fun km : string * string =>
         (if String.eqb (fst km) "content" then "Content from "
          else "Metadata from ") ++ snd km)
      (scan_context ["content"; "metadata"] ctx).

(** [_analyze_data] *)
Definition _analyze_data (c : content) (ctx : context) : M OperationResult :=
  let '(source, query, is_remote) := content_source c in
  results_file <- call (get_file_path E "analysis_results.txt" Files) ;;
  let context_summary := analyze_summary ctx in
  now <- time_strftime E ;;
  let analysis_content :=
    strip (nl ++ "Analysis Results" ++ nl
           ++ "---------------" ++ nl
           ++ "Time: " ++ now ++ nl
           ++ "Source: " ++ source ++ " (" ++ remote_or_local is_remote ++ ")" ++ nl
           ++ "Query: " ++ query ++ nl
           ++ "Context Sources: "
           ++ (match context_summary with
               | [] => "None"
               | _ => join ", " context_summary
               end) ++ nl
           ++ "        ") in
  write_text E results_file analysis_content ;;;
  ret {| output := "Analyzed " ++ remote_or_local is_remote
                   ++ " data and saved results";
         extra :=
           [("source", VStr source);
            ("query", VStr query);
            ("context_sources",
             if context_truthy ctx then VList (map VStr context_summary)
             else VList []);
            ("results_file", VStr results_file)] |}.

(** The messages collected by [_generate_content] from the context. *)
Definition generate_enhancements (ctx : context) : list string :=
  map (fun km : string * string =>
         (if String.eqb (fst km) "content" then "Enhanced with content from "
          else "Using metadata from ") ++ snd km)
      (scan_context ["content"; "metadata"] ctx).

(** [_generate_content] *)
Definition _generate_content (c : content) (ctx : context) : M OperationResult :=
  let topic := content_text c in
  stamp <- time_time E ;;
  output_file <- call (get_file_path E ("generated_" ++ str_int stamp ++ ".txt") Files) ;;
  let enhancements := generate_enhancements ctx in
  now <- time_strftime E ;;
  let generated_content :=
    strip (nl ++ "Generated Content" ++ nl
           ++ "----------------" ++ nl
           ++ "Topic: " ++ topic ++ nl
           ++ "Time: " ++ now ++ nl
           ++ "Enhancements: "
           ++ (match enhancements with
               | [] => "None"
               | _ => join ", " enhancements
               end) ++ nl
           ++ nl
           ++ "This is an example of generated content about " ++ topic ++ "." ++ nl
           ++ "The content can be enhanced with context from other modules." ++ nl
           ++ "        ") in
  write_text E output_file generated_content ;;;
  ret {| output := "Generated content about " ++ topic;
         extra :=
           [("topic", VStr topic);
            ("enhancements", VList (map VStr enhancements));
            ("output_file", VStr output_file)] |}.

(** The first statement of [_save_file]: the pair [(filename,
    file_content)].  Unpacking a split of one part into two names raises
    [ValueError]. *)
Definition save_parts (c : content) : M (string * string) :=
  match c with
  | CStr s =>
      if negb (contains_char ":" s)
      then raise (ValueError "Save operation requires format: filename:content")
      else match split1 ":" s with
           | [filename; file_content] => ret (filename, file_content)
           | _ => raise (ValueError "not enough values to unpack (expected 2, got 1)")
           end
  | CRec r => ret (c_file_ref r, c_query r)
  end.

(** [_save_file] *)
Definition _save_file (c : content) (ctx : context) : M OperationResult :=
  parts <- save_parts c ;;
  let '(filename, file_content) := parts in
  if negb (truthy filename) || negb (truthy file_content)
  then raise (ValueError "Both filename and content are required")
  else
    let filename := strip filename in
    let file_content := strip file_content in
    output_file <- call (get_file_path E filename Files) ;;
    write_text E output_file file_content ;;;
    ret {| output := "Saved content to " ++ PyPath.name output_file;
           extra :=
             [("file_path", VStr output_file);
              ("size", VInt (Z.of_nat (String.length file_content)))] |}.

(** [not url or not is_url(url)] *)
Definition download_url_invalid (url : string) : M bool :=
  if negb (truthy url) then ret true
  else ok <- call (is_url E url) ;; ret (negb ok).

(** [_download_content] *)
Definition _download_content (c : content) (ctx : context) : M OperationResult :=
  let url := match c with CStr s => s | CRec r => c_file_ref r end in
  invalid <- download_url_invalid url ;;
  if (invalid : bool)
  then raise (ValueError "Valid URL is required for download operation")
  else
    let filename :=
      if truthy (PyPath.name url) then PyPath.name url
      else "downloaded_content.txt" in
    download_file <- call (get_file_path E filename Downloads) ;;
    now <- time_strftime E ;;
    let downloaded_content :=
      strip (nl ++ "Downloaded Content" ++ nl
             ++ "----------------" ++ nl
             ++ "Source: " ++ url ++ nl
             ++ "Time: " ++ now ++ nl
             ++ "Status: Success" ++ nl
             ++ "Query: "
             ++ (match c with CRec r => c_query r | CStr _ => "None" end) ++ nl
             ++ "        ") in
    write_text E download_file downloaded_content ;;;
    ret {| output := "Downloaded content from " ++ url;
           extra :=
             [("source", VStr url);
              ("download_path", VStr download_file);
              ("size", VInt (Z.of_nat (String.length downloaded_content)))] |}.

(** The pairs collected by [_extract_info] from the context. *)
Definition extract_context_data (ctx : context) : list (string * string) :=
  scan_context ["content"; "metadata"; "answer"] ctx.

(** [_extract_info] *)
Definition _extract_info (c : content) (ctx : context) : M OperationResult :=
  let '(source, query, is_remote) := content_source c in
  stamp <- time_time E ;;
  output_file <- call (get_file_path E ("extracted_" ++ str_int stamp ++ ".txt") Files) ;;
  let context_data := extract_context_data ctx in
  now <- time_strftime E ;;
  let extraction_content :=
    strip (nl ++ "Extraction Results" ++ nl
           ++ "-----------------" ++ nl
           ++ "Time: " ++ now ++ nl
           ++ "Source: " ++ source ++ " (" ++ remote_or_local is_remote ++ ")" ++ nl
           ++ "Query: " ++ query ++ nl
           ++ "Context Used: "
           ++ join ", " (map (fun tm : string * string =>
                                fst tm ++ " from " ++ snd tm) context_data) ++ nl
           ++ nl
           ++ "This is a demonstration of information extraction." ++ nl
           ++ "The extraction can be enhanced with context from other modules." ++ nl
           ++ "        ") in
  write_text E output_file extraction_content ;;;
  ret {| output := "Extracted information from " ++ source;
         extra :=
           [("source", VStr source);
            ("query", VStr query);
            ("context_data",
             VList (map (fun tm : string * string =>
                           VTuple [VStr (fst tm); VStr (snd tm)]) context_data));
            ("output_file", VStr output_file)] |}.

Definition handler : Type := content -> context -> M OperationResult.

(** [self.supported_operations], in insertion order. *)
Definition supported_operations : list (string * handler) :=
  [("process", _process_text);
   ("analyze", _analyze_data);
   ("generate", _generate_content);
   ("save", _save_file);
   ("download", _download_content);
   ("extract", _extract_info)].

(** [self.supported_operations[operation]], [None] when the key is absent. *)
Fixpoint lookup_operation (operation : string) (ops : list (string * handler))
  : option handler :=
  match ops with
  | [] => None
  | (k, h) :: ops' =>
      if String.eqb k operation then Some h else lookup_operation operation ops'
  end.

(** [_parse_query].  Unpacking a split of one part into two names
    raises [ValueError]; [parse_query_returns] shows that this does not
    happen. *)
Definition _parse_query (query : string) : M (string * string) :=
  if contains_char ":" query then
    match split1 ":" query with
    | [operation; content] => ret (lower (strip operation), strip content)
    | _ => raise (ValueError "not enough values to unpack (expected 2, got 1)")
    end
  else ret ("process", strip query).

(** The envelope for an operation that is not supported. *)
Definition unsupported_envelope (operation : string) : pyval :=
  VDict
    [("status", VStr "error");
     ("message", VStr ("Unsupported operation: " ++ operation));
     ("data",
      VDict
        [("supported_operations",
          VList (map VStr (dict_keys supported_operations)));
         ("suggestion", VStr "Try one of the supported operations")])].

(** The envelope of a handled call. *)
Definition success_envelope (operation : string) (result : OperationResult)
    (now : string) : pyval :=
  VDict
    [("status", VStr "success");
     ("message", VStr ("Successfully processed " ++ operation ++ " operation"));
     ("data",
      VDict
        [("demo_result",
          VStr (capitalize operation ++ ": " ++ output result));
         ("operation", VStr operation);
         ("result", VDict (result_dict result));
         ("timestamp", VStr now)])].

(** The envelope built by the [except Exception] clause. *)
Definition exception_envelope (query : string) (e : exn) : pyval :=
  VDict
    [("status", VStr "error");
     ("message", VStr ("An error occurred: " ++ exn_str e));
     ("data",
      VDict
        [("error_type", VStr "unexpected_error");
         ("query_received", VStr query);
         ("suggestion",
          VStr "Please check the query format: operation: content")])].

(** Step 4 of [process]: the content handed to the handler. *)
Definition resolve_content (content_text : string) : M content :=
  file_ref <- call (extract_file_reference E content_text) ;;
  match file_ref with
  | Some ref =>
      if truthy ref then
        file_path <- call (get_file_path E ref Files) ;;
        remote <- call (is_url E ref) ;;
        let rest := strip (remove_all ref content_text) in
        ret (CRec {| c_file_ref := ref;
                     c_file_path := file_path;
                     c_is_url := remote;
                     c_query := if truthy rest then rest
                                else "Please process this content" |})
      else ret (CStr content_text)
  | None => ret (CStr content_text)
  end.

(** The body of the [try] block of [process].  None of the six handlers
    is a coroutine function, so the selected handler is called directly
    and the event loop of step 5 is never run. *)
Definition process_try (query : string) (ctx : context) : M pyval :=
  parsed <- _parse_query query ;;
  let '(operation, content_text) := parsed in
  match lookup_operation operation supported_operations with
  | None => ret (unsupported_envelope operation)
  | Some handle =>
      c <- resolve_content content_text ;;
      result <- handle c ctx ;;
      now <- time_strftime E ;;
      ret (success_envelope operation result now)
  end.

(** [process]: the [try] block, and the [except Exception] clause that
    turns a raised exception into an envelope. *)
Definition process (query : string) (ctx : context) (w : world)
  : pyval * world :=
  match process_try query ctx w with
  | (Return envelope, w') => (envelope, w')
  | (Raise e, w') => (exception_envelope query e, w')
  end.

End Module.

Arguments process E query ctx w : simpl never.

(** ** The capability descriptor *)

(** [get_capabilities] *)
Definition get_capabilities (E : Env) : dict :=
  [("description",
    VStr "Example module that demonstrates the standard module structure and best practices");
   ("capabilities",
    VList [VStr "Process text from files or direct input";
           VStr "Analyze data from local or remote sources";
           VStr "Generate content based on input and context";
           VStr "Save files to common storage";
           VStr "Download and process remote content";
           VStr "Extract information from documents"]);
   ("supported_operations",
    VList (map VStr (dict_keys (supported_operations E))));
   ("supported_files",
    VDict [("local", VList [VStr ".txt"; VStr ".json"; VStr ".csv"; VStr ".md"]);
           ("remote", VList [VStr "http://"; VStr "https://"]);
           ("context", VList [VStr "any"])]);
   ("example_queries",
    VList [VStr "process: Hello World";
           VStr "analyze: data.txt";
           VStr "analyze: https://example.com/data.json";
           VStr "generate: content about AI";
           VStr "save: example.txt:This is content to save";
           VStr "download: https://example.com/data.json";
           VStr "extract: what topics are in document.txt"])].

(** The strings of the list stored under [k]. *)
Definition listed_strings (k : string) (d : dict) : list string :=
  match dict_get k d with
  | Some (VList l) =>
      flat_map (fun v => match v with VStr s => [s] | _ => [] end) l
  | _ => []
  end.

(** ** Further notions used in the statements *)

(** No ASCII upper-case letter occurs in [s]. *)
Definition no_upper (s : string) : bool :=
  forallb (fun c => negb (PyStr.is_upper c)) (list_ascii_of_string s).

(** The text neither starts nor ends with white space. *)
Definition trimmed (s : string) : Prop :=
  PyStr.starts_clean s /\ PyStr.ends_clean s.

(** The query [operation: content]. *)
Definition canonical_query (operation content_text : string) : string :=
  operation ++ ": " ++ content_text.

(** The result fields under which a handler reports the path it wrote. *)
Definition path_keys : list string :=
  ["temp_file"; "results_file"; "output_file"; "file_path"; "download_path"].

(** The operations whose handler validates nothing. *)
Definition unvalidated_operations : list string :=
  ["process"; "analyze"; "generate"; "extract"].

(** No module of the context has, in a mapping, one of the keys
    [probes]. *)
Definition context_silent (probes : list string) (ctx : context) : Prop :=
  forall module_name module_data key,
    In (module_name, VDict module_data)
       (match ctx with Some d => d | None => [] end) ->
    In key probes -> dict_mem key module_data = false.

(** A handler that raises has written nothing; a handler that returns
    has written one trimmed text, at the path it reports, after at most
    two clock readings. *)
Definition handler_effect (w : world)
    (run : outcome OperationResult * world) : Prop :=
  match run with
  | (Raise _, w') => files w' = files w
  | (Return r, w') =>
      exists key path text,
        In key path_keys
        /\ dict_get key (extra r) = Some (VStr path)
        /\ files w' = <[path := text]> (files w)
        /\ trimmed text
        /\ ticks w <= ticks w' <= ticks w + 2
  end.


(** ** A concrete environment *)

Module Demo.

Import PyStr.

(** Maximal runs of characters that satisfy [p]; between two characters
    that do not, the run is empty. *)
Fixpoint runs (p : ascii -> bool) (s : string) : list string :=
  match s with
  | EmptyString => [EmptyString]
  | String c s' =>
      if p c then
        match runs p s' with
        | r :: rest => String c r :: rest
        | [] => [String c EmptyString]
        end
      else EmptyString :: runs p s'
  end.

Definition is_digit (c : ascii) : bool :=
  (48 <=? code c)%N && (code c <=? 57)%N.

Definition is_name_char (c : ascii) : bool :=
  is_upper c || is_lower c || is_digit c
  || Ascii.eqb c "_" || Ascii.eqb c "-" || Ascii.eqb c ".".

Definition url_like (s : string) : bool :=
  String.prefix "http://" s || String.prefix "https://" s.

Fixpoint last_char (s : string) : option ascii :=
  match s with
  | EmptyString => None
  | String c EmptyString => Some c
  | String _ s' => last_char s'
  end.

(** Some text, a dot, some text. *)
Definition filename_like (s : string) : bool :=
  match s with
  | EmptyString => false
  | String c s' =>
      negb (Ascii.eqb c ".") && contains_char "." s'
      && match last_char s' with
         | Some d => negb (Ascii.eqb d ".")
         | None => false
         end
  end.

Definition non_empty_runs (p : ascii -> bool) (s : string) : list string :=
  List.filter truthy (runs p s).

(** Modelled from the spec: the file-reference extractor, which is not
    part of this module.  It returns the first URL-like word of the text
    if there is one, else the first filename-like run of name
    characters, else [None]. *)
Definition extract_file_reference (text : string) : outcome (option string) :=
  match List.find url_like (non_empty_runs (fun c => negb (is_space c)) text) with
  | Some u => Return (Some u)
  | None => Return (List.find filename_like (non_empty_runs is_name_char text))
  end.

(** Modelled from the spec: the URL predicate. *)
Definition is_url (s : string) : outcome bool := Return (url_like s).

Definition dir_label (d : dir_type) : string :=
  match d with
  | Files => "files"
  | Temp => "temp"
  | Downloads => "downloads"
  end.

(** Modelled from the spec: path resolution, one directory for each
    logical storage area. *)
Definition get_file_path (name : string) (d : dir_type) : outcome string :=
  Return ("/data/" ++ dir_label d ++ "/" ++ name).

(** Modelled from the spec: the file system refuses a write at a path
    whose last component is [..] or that has no component at all, since
    such a path names a directory. *)
Definition write_refused (path : string) : option exn :=
  if String.eqb (PyPath.name path) ".." || String.eqb (PyPath.name path) ""
  then Some (ForeignError ("[Errno 21] Is a directory: '" ++ path ++ "'"))
  else None.

(** A stand-in for the formatting of local time. *)
Definition strftime (z : Z) : string := "epoch " ++ str_int z.

(** The environment with the clock [clk]. *)
Definition env (clk : nat -> Z) : Env :=
  Build_Env get_file_path extract_file_reference is_url clk strftime
    write_refused.

(** The same environment, with an extractor that finds no reference. *)
Definition env_without_references (clk : nat -> Z) : Env :=
  Build_Env get_file_path (fun _ => Return None) is_url clk strftime
    write_refused.

(** The world before any call: no file, no clock reading. *)
Definition w0 : world := {| files := ∅; ticks := 0 |}.

End Demo.

(** A clock that advances by one second at every reading, and a clock
    that stands still. *)
Definition tick_clock (n : nat) : Z := 1700000000 + Z.of_nat n.
Definition frozen_clock (n : nat) : Z := 1700000000.

(** ** Reading an envelope *)

(** [v[k]] for a mapping [v]. *)
Definition envelope_field (k : string) (v : pyval) : option pyval :=
  match v with
  | VDict d => dict_get k d
  | _ => None
  end.

(** [v["data"]], when it is a mapping. *)
Definition envelope_data (v : pyval) : option dict :=
  match envelope_field "data" v with
  | Some (VDict d) => Some d
  | _ => None
  end.

(** [v["data"]["result"][k]] *)
Definition result_field (k : string) (v : pyval) : option pyval :=
  match envelope_data v with
  | Some d =>
      match dict_get "result" d with
      | Some (VDict r) => dict_get k r
      | _ => None
      end
  | None => None
  end.

(** A mapping with a status that is [success] or [error], a message
    string and a data mapping. *)
Definition well_formed_envelope (v : pyval) : Prop :=
  exists status message data,
    v = VDict [("status", VStr status); ("message", VStr message);
               ("data", VDict data)]
    /\ (status = "success" \/ status = "error").

(** The six recognized operation names. *)
Definition known_operations : list string :=
  ["process"; "analyze"; "generate"; "save"; "download"; "extract"].

(** The string has a colon. *)
Definition has_colon (s : string) : Prop :=
  exists pre post, s = pre ++ ":" ++ post.

(** ** Comparing two runs *)

(** The collaborators return on every argument. *)
Definition never_raises (E : Env) : Prop :=
  (forall name d, exists path, get_file_path E name d = Return path)
  /\ (forall text, exists ref, extract_file_reference E text = Return ref)
  /\ (forall s, exists b, is_url E s = Return b).

(** Path resolution sends two names of the [files] area to two paths. *)
Definition separates_names (E : Env) : Prop :=
  forall name1 name2 path,
    get_file_path E name1 Files = Return path ->
    get_file_path E name2 Files = Return path ->
    name1 = name2.

(** The file name and the storage area that an operation without
    validation writes to, when its first clock reading is the one
    numbered [tick]. *)
Definition output_name (E : Env) (operation : string) (tick : nat)
  : string * dir_type :=
  if String.eqb operation "process" then ("processed_text.txt", Temp)
  else if String.eqb operation "analyze" then ("analysis_results.txt", Files)
  else if String.eqb operation "generate"
  then ("generated_" ++ PyStr.str_int (clock E tick) ++ ".txt", Files)
  else ("extracted_" ++ PyStr.str_int (clock E tick) ++ ".txt", Files).

(** The file system accepts a write at the path resolved for that
    name. *)
Definition writes_output (E : Env) (operation : string) (tick : nat) : Prop :=
  forall path,
    get_file_path E (fst (output_name E operation tick))
      (snd (output_name E operation tick)) = Return path ->
    write_refused E path = None.

(** The stem of the file name that [generate] and [extract] stamp. *)
Definition stamp_stem (operation : string) : string :=
  if String.eqb operation "generate" then "generated_" else "extracted_".

(** The fields of a handler's result that report what was found in the
    context. *)
Definition annotation_keys : list string :=
  ["context_used"; "context_sources"; "enhancements"; "context_data"].

(** Two runs of a handler from the world [w] took the same course: both
    raised the same exception at the same point, or both returned after
    the same clock readings and one write to the same path, with the
    same output and the same fields but for the annotations. *)
Definition same_flow (w : world)
    (run1 run2 : outcome OperationResult * world) : Prop :=
  match run1, run2 with
  | (Return r1, w1), (Return r2, w2) =>
      ticks w1 = ticks w2
      /\ (exists path text1 text2,
             files w1 = <[path := text1]> (files w)
             /\ files w2 = <[path := text2]> (files w))
      /\ output r1 = output r2
      /\ dict_keys (extra r1) = dict_keys (extra r2)
      /\ (forall k, ~ In k annotation_keys ->
                    dict_get k (extra r1) = dict_get k (extra r2))
  | (Raise e1, w1), (Raise e2, w2) => e1 = e2 /\ w1 = w2
  | _, _ => False
  end.

(** ** Proof steps *)

(** Unfolds the operations of the monad. *)
Ltac run_monad :=
  unfold bind, call, ret, raise, time_time, time_strftime, write_text.

(** Closes the comparison of two results that differ in annotation
    fields only. *)
Ltac same_fields :=
  let k := fresh "k" in
  let Hk := fresh "Hk" in
  intros k Hk; cbn [dict_get extra];
  repeat match goal with
         | |- context [String.eqb ?a k] =>
             destruct (String.eqb_spec a k) as [<-|]; [try reflexivity|]
         end;
  try reflexivity;
  exfalso; apply Hk; unfold annotation_keys; simpl; auto 10.

Ltac same_return :=
  unfold same_flow; cbn [ticks files output extra];
  split; [reflexivity|];
  split; [eexists _, _, _; split; reflexivity|];
  split; [reflexivity|];
  split; [reflexivity|same_fields].

(** Closes the description of a handler's one write; [trim] proves that
    the text is trimmed. *)
Ltac effect_return k trim :=
  unfold handler_effect; cbn [ticks files extra];
  eexists k, _, _;
  split; [unfold path_keys; simpl; auto 10|];
  split; [reflexivity|];
  split; [reflexivity|];
  split; [trim|lia].



(** Shows that a concrete environment accepts the write of an
    operation's output. *)
Ltac demo_writes :=
  let path := fresh "path" in
  let H := fresh "H" in
  intros path H; vm_compute in H; injection H as <-; vm_compute; reflexivity.

(** ** Examples *)

Example strip_example : PyStr.strip "  ANALYZE " = "ANALYZE".
Proof. reflexivity. Qed.

Example remove_all_example :
  PyStr.remove_all "ab" "xabyabab z" = "xy z".
Proof. reflexivity. Qed.

Example split1_example : PyStr.split1 ":" "a:b:c" = ["a"; "b:c"].
Proof. reflexivity. Qed.

Example str_int_example : PyStr.str_int 1700000000 = "1700000000".
Proof. reflexivity. Qed.

Example path_name_url :
  PyPath.name "https://example.com/data.json" = "data.json".
Proof. reflexivity. Qed.

Example path_name_trailing_slash : PyPath.name "https://example.com/" = "example.com".
Proof. reflexivity. Qed.

Example path_name_root : PyPath.name "/" = "".
Proof. reflexivity. Qed.


(** ** Facts about the string primitives *)

Module PyStrFacts.

Import PyStr.

Lemma app_cons c (a b : string) : String c a ++ b = String c (a ++ b).
Proof. reflexivity. Qed.

Lemma app_empty (b : string) : EmptyString ++ b = b.
Proof. reflexivity. Qed.

Lemma contains_char_app sep pre post :
  contains_char sep (pre ++ String sep post) = true.
Proof.
  induction pre as [|c pre IH]; rewrite ?app_cons, ?app_empty; simpl.
  - now rewrite Ascii.eqb_refl.
  - now rewrite IH, orb_true_r.
Qed.

Lemma contains_char_split sep s :
  contains_char sep s = true ->
  exists pre post, s = pre ++ String sep post /\ contains_char sep pre = false.
Proof.
  induction s as [|c s IH]; simpl; [discriminate|].
  destruct (Ascii.eqb c sep) eqn:Hc; simpl.
  - intros _. apply Ascii.eqb_eq in Hc. subst c.
    now exists EmptyString, s.
  - intros Hs. destruct (IH Hs) as (pre & post & -> & Hpre).
    exists (String c pre), post. rewrite app_cons. simpl. now rewrite Hc, Hpre.
Qed.

Lemma has_colon_contains s : has_colon s <-> contains_char ":" s = true.
Proof.
  split.
  - intros (pre & post & ->). apply contains_char_app.
  - intros H. destruct (contains_char_split _ _ H) as (pre & post & -> & _).
    now exists pre, post.
Qed.

Lemma no_colon_contains s : ~ has_colon s <-> contains_char ":" s = false.
Proof.
  rewrite has_colon_contains. destruct (contains_char ":" s); split; congruence.
Qed.

Lemma split1_first sep pre post :
  contains_char sep pre = false ->
  split1 sep (pre ++ String sep post) = [pre; post].
Proof.
  induction pre as [|c pre IH]; rewrite ?app_cons, ?app_empty; simpl.
  - now rewrite Ascii.eqb_refl.
  - destruct (Ascii.eqb c sep); simpl; [discriminate|].
    intros H. now rewrite (IH H).
Qed.

Lemma split1_none sep s :
  contains_char sep s = false -> split1 sep s = [s].
Proof.
  induction s as [|c s IH]; simpl; [reflexivity|].
  destruct (Ascii.eqb c sep); simpl; [discriminate|].
  intros H. now rewrite (IH H).
Qed.

Lemma all_space_cons c s :
  all_space (String c s) = is_space c && all_space s.
Proof. reflexivity. Qed.

Lemma lstrip_all_space s : all_space s = true -> lstrip s = EmptyString.
Proof.
  induction s as [|c s IH]; [reflexivity|].
  rewrite all_space_cons. intros [Hc Hs]%andb_true_iff.
  simpl. now rewrite Hc, IH.
Qed.

Lemma strip_all_space s : all_space s = true -> strip s = EmptyString.
Proof. intros H. unfold strip. now rewrite lstrip_all_space. Qed.

Lemma all_space_no_colon s : all_space s = true -> contains_char ":" s = false.
Proof.
  induction s as [|c s IH]; [reflexivity|].
  rewrite all_space_cons. intros [Hc Hs]%andb_true_iff.
  simpl. rewrite (IH Hs), orb_false_r.
  destruct (Ascii.eqb c ":") eqn:E; [|reflexivity].
  apply Ascii.eqb_eq in E. subst c. discriminate Hc.
Qed.

Lemma lstrip_decompose s :
  exists l, s = l ++ lstrip s /\ all_space l = true /\ starts_clean (lstrip s).
Proof.
  induction s as [|c s (l & Hs & Hl & Hc)].
  - now exists EmptyString.
  - simpl. destruct (is_space c) eqn:Hsp.
    + exists (String c l). rewrite app_cons, <- Hs.
      now rewrite all_space_cons, Hsp, Hl.
    + now exists EmptyString.
Qed.

Lemma rstrip_decompose s :
  exists r, s = rstrip s ++ r /\ all_space r = true /\ ends_clean (rstrip s).
Proof.
  induction s as [|c s (r & Hs & Hr & Hc)].
  - now exists EmptyString.
  - simpl. destruct (rstrip s) as [|d t] eqn:Hrs.
    + rewrite app_empty in Hs. subst r. destruct (is_space c) eqn:Hsp.
      * exists (String c s). now rewrite app_empty, all_space_cons, Hsp, Hr.
      * now exists s.
    + exists r. rewrite app_cons, <- Hs. auto.
Qed.

Lemma rstrip_starts_clean s : starts_clean s -> starts_clean (rstrip s).
Proof.
  destruct s as [|c s]; [trivial|]. simpl. intros Hc.
  destruct (rstrip s); [now rewrite Hc|exact Hc].
Qed.

(** [strip] removes a run of white space at each end, and what is left
    neither starts nor ends with white space. *)
Lemma strip_decompose s :
  exists l r,
    s = l ++ strip s ++ r /\ all_space l = true /\ all_space r = true
    /\ starts_clean (strip s) /\ ends_clean (strip s).
Proof.
  destruct (lstrip_decompose s) as (l & Hs & Hl & Hc).
  destruct (rstrip_decompose (lstrip s)) as (r & Hs' & Hr & Hc').
  exists l, r. unfold strip. rewrite <- Hs', <- Hs.
  repeat split; auto using rstrip_starts_clean.
Qed.

Lemma lower_char_not_upper c : is_upper (lower_char c) = false.
Proof.
  destruct c as [[] [] [] [] [] [] [] []]; reflexivity.
Qed.

(** [lower] keeps the length and leaves no upper-case letter. *)
Lemma lower_spec s :
  String.length (lower s) = String.length s
  /\ forallb (fun c => negb (is_upper c)) (list_ascii_of_string (lower s)) = true.
Proof.
  induction s as [|c s [IHl IHu]]; [now split|].
  simpl. rewrite IHl, IHu, lower_char_not_upper. now split.
Qed.

End PyStrFacts.

(** ** Running the monad *)

Lemma bind_return_inv {A B : Type} (m : M A) (k : A -> M B) w b w' :
  bind m k w = (Return b, w') ->
  exists a w1, m w = (Return a, w1) /\ k a w1 = (Return b, w').
Proof.
  unfold bind. destruct (m w) as [[a|e] w1]; [eauto|discriminate].
Qed.

Lemma bind_return {A B : Type} (m : M A) (k : A -> M B) w a w1 :
  m w = (Return a, w1) -> bind m k w = k a w1.
Proof. unfold bind. now intros ->. Qed.

Lemma bind_raise {A B : Type} (m : M A) (k : A -> M B) w e w1 :
  m w = (Raise e, w1) -> bind m k w = (Raise e, w1).
Proof. unfold bind. now intros ->. Qed.

(** ** The parser *)

Section Parser.

Import PyStr PyStrFacts.

Lemma parse_no_colon q w :
  contains_char ":" q = false ->
  _parse_query q w = (Return ("process", strip q), w).
Proof. unfold _parse_query. now intros ->. Qed.

Lemma parse_colon pre post w :
  contains_char ":" pre = false ->
  _parse_query (pre ++ ":" ++ post) w
  = (Return (lower (strip pre), strip post), w).
Proof.
  intros Hpre. unfold _parse_query. rewrite app_cons, app_empty.
  now rewrite contains_char_app, (split1_first _ _ _ Hpre).
Qed.

(** The unpacking in [_parse_query] never fails: the parser returns. *)
Lemma parse_query_returns q w :
  exists operation content_text,
    _parse_query q w = (Return (operation, content_text), w).
Proof.
  destruct (contains_char ":" q) eqn:Hq.
  - destruct (contains_char_split _ _ Hq) as (pre & post & -> & Hpre).
    exists (lower (strip pre)), (strip post).
    now rewrite <- (parse_colon pre post w Hpre), app_cons, app_empty.
  - eexists _, _. now apply parse_no_colon.
Qed.

Lemma parse_query_world q w r w' : _parse_query q w = (r, w') -> w' = w.
Proof.
  destruct (parse_query_returns q w) as (op & c & ->). now intros [= _ ->].
Qed.

End Parser.

(** ** The table of operations *)

Section Table.

Variable E : Env.

Lemma supported_names : dict_keys (supported_operations E) = known_operations.
Proof. reflexivity. Qed.

Lemma lookup_operation_known operation :
  In operation known_operations ->
  exists h, lookup_operation operation (supported_operations E) = Some h.
Proof.
  unfold known_operations. simpl.
  intros [<-|[<-|[<-|[<-|[<-|[<-|[]]]]]]]; eexists; reflexivity.
Qed.

Lemma lookup_operation_unknown operation :
  ~ In operation known_operations ->
  lookup_operation operation (supported_operations E) = None.
Proof.
  unfold known_operations. intros H. simpl in H.
  unfold supported_operations. cbn [lookup_operation].
  repeat match goal with
         | |- context [String.eqb ?k operation] =>
             destruct (String.eqb_spec k operation); [exfalso; tauto|]
         end.
  reflexivity.
Qed.

Lemma lookup_operation_some operation h :
  lookup_operation operation (supported_operations E) = Some h ->
  In operation known_operations.
Proof.
  intros H. destruct (in_dec String.string_dec operation known_operations) as [|Hn];
    [assumption|].
  rewrite (lookup_operation_unknown _ Hn) in H. discriminate.
Qed.

(** An unsupported operation: the envelope is returned at once. *)
Lemma process_unsupported q ctx w operation content_text :
  _parse_query q w = (Return (operation, content_text), w) ->
  lookup_operation operation (supported_operations E) = None ->
  process E q ctx w = (unsupported_envelope E operation, w).
Proof.
  intros Hp Hl. unfold process, process_try.
  rewrite (bind_return _ _ _ _ _ Hp). now rewrite Hl.
Qed.

(** What the [try] block can return. *)
Lemma process_try_return q ctx w v w' :
  process_try E q ctx w = (Return v, w') ->
  exists operation content_text,
    _parse_query q w = (Return (operation, content_text), w)
    /\ ((lookup_operation operation (supported_operations E) = None
         /\ v = unsupported_envelope E operation /\ w' = w)
        \/ (exists handle c result now w1 w2,
               lookup_operation operation (supported_operations E) = Some handle
               /\ resolve_content E content_text w = (Return c, w1)
               /\ handle c ctx w1 = (Return result, w2)
               /\ time_strftime E w2 = (Return now, w')
               /\ v = success_envelope operation result now)).
Proof.
  unfold process_try. intros H.
  apply bind_return_inv in H as ([operation content_text] & w1 & Hp & H).
  pose proof (parse_query_world _ _ _ _ Hp) as ->.
  exists operation, content_text. split; [exact Hp|].
  destruct (lookup_operation operation (supported_operations E)) as [handle|].
  - right.
    apply bind_return_inv in H as (c & w1 & Hc & H).
    apply bind_return_inv in H as (result & w2 & Hh & H).
    apply bind_return_inv in H as (now & w3 & Ht & H).
    injection H as <- <-.
    now exists handle, c, result, now, w1, w2.
  - left. now injection H as <- <-.
Qed.

End Table.

(** ** The dispatcher *)

Section Dispatcher.

Import PyStr PyStrFacts.

Variable E : Env.

(** C1. For every query and every context, [None] included, [process]
    returns a well-formed envelope: a mapping with a status that is
    [success] or [error], a message string and a data mapping.  The
    exceptions raised in the [try] block, by the module or by a
    collaborator, are turned into an envelope; none reaches the caller. *)
Theorem process_returns_envelope (q : string) (ctx : context) (w : world) :
  well_formed_envelope (fst (process E q ctx w)).
Proof.
  unfold process.
  destruct (process_try E q ctx w) as [[v|e] w'] eqn:Htry; cbn [fst].
  - apply process_try_return in Htry
      as (operation & content_text & _
          & [(_ & -> & _)|(h & c & r & now & w1 & w2 & _ & _ & _ & _ & ->)]).
    + eexists _, _, _. split; [reflexivity|now right].
    + eexists _, _, _. split; [reflexivity|now left].
  - eexists _, _, _. split; [reflexivity|now right].
Qed.

(** C2. A query without a colon parses to the operation [process] and
    the trimmed query.  A query with a colon parses to the text before
    the first colon, trimmed and lower-cased, and the text after it,
    trimmed; so ["  ANALYZE :  data.txt "] gives [analyze] and
    [data.txt]. *)
Theorem parse_query_contract :
  (forall q w, ~ has_colon q ->
     _parse_query q w = (Return ("process", strip q), w))
  /\ (forall pre post w, ~ has_colon pre ->
        _parse_query (pre ++ ":" ++ post) w
        = (Return (lower (strip pre), strip post), w))
  /\ (forall w, _parse_query "  ANALYZE :  data.txt " w
                = (Return ("analyze", "data.txt"), w)).
Proof.
  split; [|split].
  - intros q w Hq. now apply parse_no_colon, no_colon_contains.
  - intros pre post w Hpre. now apply parse_colon, no_colon_contains.
  - reflexivity.
Qed.

(** C3. When the parsed operation is not one of the six names,
    [process] returns the error envelope whose data lists the six names,
    and the world is the one it started from: no file is written and the
    clock is not read.  The result is the same in every environment: no
    handler and no collaborator takes part in it. *)
Theorem unsupported_operation_no_effect
    (q : string) (ctx : context) (w : world) (operation content_text : string) :
  _parse_query q w = (Return (operation, content_text), w) ->
  ~ In operation known_operations ->
  process E q ctx w
  = (VDict
       [("status", VStr "error");
        ("message", VStr ("Unsupported operation: " ++ operation));
        ("data",
         VDict
           [("supported_operations",
             VList [VStr "process"; VStr "analyze"; VStr "generate";
                    VStr "save"; VStr "download"; VStr "extract"]);
            ("suggestion", VStr "Try one of the supported operations")])],
     w)
  /\ forall E' : Env, process E' q ctx w = process E q ctx w.
Proof.
  intros Hp Hop. split.
  - now rewrite (process_unsupported E _ ctx _ _ _ Hp
                   (lookup_operation_unknown E _ Hop)).
  - intros E'.
    now rewrite (process_unsupported E _ ctx _ _ _ Hp
                   (lookup_operation_unknown E _ Hop)),
      (process_unsupported E' _ ctx _ _ _ Hp
         (lookup_operation_unknown E' _ Hop)).
Qed.

(** C4. When [process] returns status [success], the data mapping has
    exactly the keys [demo_result], [operation], [result] and
    [timestamp], the operation is the parsed one and is one of the six,
    the result is what its handler returned, and [demo_result] is the
    capitalized operation name, a colon and a space, and the handler's
    output. *)
Theorem success_envelope_shape
    (q : string) (ctx : context) (w : world) (v : pyval) (w' : world) :
  process E q ctx w = (v, w') ->
  envelope_field "status" v = Some (VStr "success") ->
  exists operation content_text handle c result now w1 w2,
    _parse_query q w = (Return (operation, content_text), w)
    /\ In operation known_operations
    /\ lookup_operation operation (supported_operations E) = Some handle
    /\ handle c ctx w1 = (Return result, w2)
    /\ envelope_data v
       = Some [("demo_result",
                VStr (capitalize operation ++ ": " ++ output result));
               ("operation", VStr operation);
               ("result", VDict (result_dict result));
               ("timestamp", VStr now)].
Proof.
  unfold process. intros Hproc Hstatus.
  destruct (process_try E q ctx w) as [[v0|e] w0] eqn:Htry;
    injection Hproc as <- <-; [|discriminate Hstatus].
  apply process_try_return in Htry
    as (operation & content_text & Hp
        & [(_ & -> & _)|(h & c & r & now & w1 & w2 & Hl & _ & Hh & _ & ->)]);
    [discriminate Hstatus|].
  exists operation, content_text, h, c, r, now, w1, w2.
  repeat split; eauto using lookup_operation_some.
Qed.

(** C9, as amended. When [process] returns status [error], the data
    mapping has a [suggestion] and either [error_type] equal to
    [unexpected_error] with the query received (an exception was caught),
    or the list of supported operations and no [error_type] (the
    operation is not supported). *)
Theorem error_envelope_shape
    (q : string) (ctx : context) (w : world) (v : pyval) (w' : world) :
  process E q ctx w = (v, w') ->
  envelope_field "status" v = Some (VStr "error") ->
  exists data,
    envelope_data v = Some data
    /\ dict_mem "suggestion" data = true
    /\ ((dict_get "error_type" data = Some (VStr "unexpected_error")
         /\ dict_get "query_received" data = Some (VStr q))
        \/ (exists operation content_text,
               _parse_query q w = (Return (operation, content_text), w)
               /\ ~ In operation known_operations
               /\ dict_get "supported_operations" data
                  = Some (VList (map VStr known_operations))
               /\ dict_get "error_type" data = None)).
Proof.
  unfold process. intros Hproc Hstatus.
  destruct (process_try E q ctx w) as [[v0|e] w0] eqn:Htry;
    injection Hproc as <- <-.
  - apply process_try_return in Htry
      as (operation & content_text & Hp
          & [(Hl & -> & _)|(h & c & r & now & w1 & w2 & _ & _ & _ & _ & ->)]);
      [|discriminate Hstatus].
    eexists. split; [reflexivity|]. split; [reflexivity|]. right.
    exists operation, content_text. repeat split; auto.
    intros Hin. destruct (lookup_operation_known E _ Hin) as [h Hh].
    congruence.
  - eexists. split; [reflexivity|]. split; [reflexivity|]. now left.
Qed.

(** C10. When the text before the first colon is empty or white space,
    the parsed operation is the empty string, and [process] returns the
    envelope for an unsupported operation; the operation does not
    default to [process]. *)
Theorem blank_operation_unsupported
    (pre post : string) (ctx : context) (w : world) :
  all_space pre = true ->
  _parse_query (pre ++ ":" ++ post) w = (Return ("", strip post), w)
  /\ process E (pre ++ ":" ++ post) ctx w = (unsupported_envelope E "", w).
Proof.
  intros Hpre.
  assert (Hp : _parse_query (pre ++ ":" ++ post) w
               = (Return ("", strip post), w)).
  { rewrite (parse_colon pre post w (all_space_no_colon _ Hpre)).
    now rewrite (strip_all_space _ Hpre). }
  split; [exact Hp|].
  now apply (process_unsupported E _ ctx _ _ _ Hp).
Qed.

End Dispatcher.

(** ** The handlers *)

Section Handlers.

Import PyStr PyStrFacts.

Variable E : Env.

Lemma parse_query_any_world q w r w1 :
  _parse_query q w = (Return r, w) -> _parse_query q w1 = (Return r, w1).
Proof.
  unfold _parse_query.
  destruct (contains_char ":" q);
    [destruct (split1 ":" q) as [|a [|b [|]]]|];
    unfold ret, raise; intros H; inversion H; reflexivity.
Qed.

(** Step 4 has no effect on the world. *)
Lemma resolve_content_world text w o w' :
  resolve_content E text w = (o, w') -> w' = w.
Proof.
  unfold resolve_content. run_monad.
  destruct (extract_file_reference E text) as [[ref|]|e]; try now intros [= _ <-].
  destruct (truthy ref); [|now intros [= _ <-]].
  destruct (get_file_path E ref Files); [|now intros [= _ <-]].
  destruct (is_url E ref); now intros [= _ <-].
Qed.

(** With no reference found, the handler gets the plain string. *)
Lemma resolve_content_plain text w ref :
  extract_file_reference E text = Return ref ->
  ref_truthy ref = false ->
  resolve_content E text w = (Return (CStr text), w).
Proof.
  unfold resolve_content. run_monad. intros -> Href.
  destruct ref as [ref|]; [|reflexivity].
  simpl in Href. now rewrite Href.
Qed.

(** With collaborators that return, step 4 returns. *)
Lemma resolve_content_returns text w :
  never_raises E -> exists c, resolve_content E text w = (Return c, w).
Proof.
  intros (Hpath & Hext & Hurl). unfold resolve_content. run_monad.
  destruct (Hext text) as [[ref|] ->]; [|eauto].
  destruct (truthy ref); [|eauto].
  destruct (Hpath ref Files) as [p ->]. destruct (Hurl ref) as [b ->]. eauto.
Qed.

(** A handled call. *)
Lemma process_handled q ctx w operation text handle c w1 result w2 :
  _parse_query q w = (Return (operation, text), w) ->
  lookup_operation operation (supported_operations E) = Some handle ->
  resolve_content E text w = (Return c, w1) ->
  handle c ctx w1 = (Return result, w2) ->
  process E q ctx w
  = (success_envelope operation result (strftime E (clock E (ticks w2))),
     {| files := files w2; ticks := S (ticks w2) |}).
Proof.
  intros Hp Hl Hc Hh. unfold process, process_try.
  rewrite (bind_return _ _ _ _ _ Hp), Hl.
  rewrite (bind_return _ _ _ _ _ Hc), (bind_return _ _ _ _ _ Hh).
  reflexivity.
Qed.

(** A call whose handler raises. *)
Lemma process_handler_raised q ctx w operation text handle c w1 e w2 :
  _parse_query q w = (Return (operation, text), w) ->
  lookup_operation operation (supported_operations E) = Some handle ->
  resolve_content E text w = (Return c, w1) ->
  handle c ctx w1 = (Raise e, w2) ->
  process E q ctx w = (exception_envelope q e, w2).
Proof.
  intros Hp Hl Hc Hh. unfold process, process_try.
  rewrite (bind_return _ _ _ _ _ Hp), Hl.
  rewrite (bind_return _ _ _ _ _ Hc), (bind_raise _ _ _ _ _ Hh).
  reflexivity.
Qed.

(** [_save_file] on a string without a colon. *)
Lemma save_file_no_colon s ctx w :
  contains_char ":" s = false ->
  _save_file E (CStr s) ctx w
  = (Raise (ValueError "Save operation requires format: filename:content"), w).
Proof.
  intros Hs. unfold _save_file, save_parts. now rewrite Hs.
Qed.

(** The parts that [_save_file] takes from a string with a colon. *)
Lemma save_parts_colon name body w :
  contains_char ":" name = false ->
  save_parts (CStr (name ++ ":" ++ body)) w = (Return (name, body), w).
Proof.
  intros Hname. unfold save_parts. rewrite app_cons, app_empty.
  now rewrite contains_char_app, (split1_first _ _ _ Hname).
Qed.

(** [_save_file] on [name:body] with an empty part. *)
Lemma save_file_missing_part name body ctx w :
  contains_char ":" name = false ->
  name = "" \/ body = "" ->
  _save_file E (CStr (name ++ ":" ++ body)) ctx w
  = (Raise (ValueError "Both filename and content are required"), w).
Proof.
  intros Hname Hempty. unfold _save_file.
  rewrite (bind_return _ _ _ _ _ (save_parts_colon name body w Hname)).
  destruct Hempty as [-> | ->]; [reflexivity|].
  now rewrite orb_true_r.
Qed.

(** [_save_file] on [name:body] with both parts present. *)
Lemma save_file_written name body ctx w path :
  contains_char ":" name = false ->
  truthy name = true -> truthy body = true ->
  get_file_path E (strip name) Files = Return path ->
  write_refused E path = None ->
  _save_file E (CStr (name ++ ":" ++ body)) ctx w
  = (Return {| output := "Saved content to " ++ PyPath.name path;
               extra := [("file_path", VStr path);
                         ("size", VInt (Z.of_nat (String.length (strip body))))] |},
     {| files := <[path := strip body]> (files w); ticks := ticks w |}).
Proof.
  intros Hname Hn Hb Hpath Hw. unfold _save_file.
  rewrite (bind_return _ _ _ _ _ (save_parts_colon name body w Hname)).
  rewrite Hn, Hb. cbn [negb orb]. run_monad. now rewrite Hpath, Hw.
Qed.

End Handlers.

(** ** Saving *)

Section Saving.

Import PyStr PyStrFacts.

Variable E : Env.

(** The content [report.txt:Hello] when the handler gets it as it is:
    if the extractor finds no file reference in it, path resolution
    returns a path for [report.txt] and the write is accepted, the query
    [save: report.txt:Hello] is a success, the file at that path holds
    [Hello], and [data.result.size] is 5. *)
Lemma save_report_hello (ctx : context) (w : world) (path : string) :
  extract_file_reference E "report.txt:Hello" = Return None ->
  get_file_path E "report.txt" Files = Return path ->
  write_refused E path = None ->
  exists v w',
    process E "save: report.txt:Hello" ctx w = (v, w')
    /\ envelope_field "status" v = Some (VStr "success")
    /\ files w' = <[path := "Hello"]> (files w)
    /\ files w' !! path = Some "Hello"
    /\ result_field "size" v = Some (VInt 5).
Proof.
  intros Hext Hpath Hw.
  eexists _, _. split.
  - eapply (process_handled E _ ctx w "save" "report.txt:Hello" (_save_file E)).
    + reflexivity.
    + reflexivity.
    + now apply (resolve_content_plain E _ w None).
    + now apply (save_file_written E "report.txt" "Hello" ctx w path).
  - cbn [files]. rewrite lookup_insert_eq. repeat split; reflexivity.
Qed.

(** The validation of [_save_file] when the handler gets the content as
    it is.  If the extractor finds no file reference in a content
    without a colon, the [save] query returns status [error] with the
    message of the validation error, and the world is unchanged.  The
    handler raises a validation error for a string without a colon, and
    for a string [name:body] whose name or whose body is empty. *)
Lemma save_validation :
  (forall q text ref ctx w,
      _parse_query q w = (Return ("save", text), w) ->
      ~ has_colon text ->
      extract_file_reference E text = Return ref ->
      ref_truthy ref = false ->
      process E q ctx w
      = (exception_envelope q
           (ValueError "Save operation requires format: filename:content"), w)
      /\ envelope_field "status" (fst (process E q ctx w)) = Some (VStr "error"))
  /\ (forall s ctx w,
         ~ has_colon s ->
         _save_file E (CStr s) ctx w
         = (Raise (ValueError "Save operation requires format: filename:content"), w))
  /\ (forall name body ctx w,
         ~ has_colon name ->
         name = "" \/ body = "" ->
         _save_file E (CStr (name ++ ":" ++ body)) ctx w
         = (Raise (ValueError "Both filename and content are required"), w)).
Proof.
  split; [|split].
  - intros q text ref ctx w Hp Hcolon Hext Href.
    assert (Hproc : process E q ctx w
                    = (exception_envelope q
                         (ValueError "Save operation requires format: filename:content"), w)).
    { eapply (process_handler_raised E q ctx w "save" text (_save_file E)).
      - exact Hp.
      - reflexivity.
      - now apply (resolve_content_plain E _ w ref).
      - now apply save_file_no_colon, no_colon_contains. }
    now rewrite Hproc.
  - intros s ctx w Hs. now apply save_file_no_colon, no_colon_contains.
  - intros name body ctx w Hname Hempty.
    now apply save_file_missing_part; [apply no_colon_contains|].
Qed.

End Saving.

(** C5. The code at the input of the claim: with an extractor that
    takes [report.txt] for a file reference, step 4 of [process] cuts the
    reference out of the content and the handler stores what is left,
    colon first.  The query [save: report.txt:Hello] writes [:Hello], of
    size 6, and no file holds [Hello]. *)
Lemma save_report_hello_with_reference :
  let run := process (Demo.env tick_clock) "save: report.txt:Hello" None Demo.w0 in
  envelope_field "status" (fst run) = Some (VStr "success")
  /\ result_field "size" (fst run) = Some (VInt 6)
  /\ files (snd run) !! "/data/files/report.txt" = Some ":Hello"
  /\ forall path, files (snd run) !! path <> Some "Hello".
Proof.
  assert (Hfiles : files (snd (process (Demo.env tick_clock)
                                 "save: report.txt:Hello" None Demo.w0))
                   = {[ "/data/files/report.txt" := ":Hello" ]})
    by (vm_compute; reflexivity).
  cbv zeta. rewrite Hfiles. repeat split; try (vm_compute; reflexivity).
  intros path [_ H]%lookup_singleton_Some. discriminate H.
Qed.

(** C6. The code at the input of the claim: with an extractor that
    takes [report.txt] for a file reference, step 4 of [process] fills in
    the default query, which passes the check that [_save_file] makes of
    its content.  The query [save: report.txt], whose content has no
    colon, is a success and writes the default text. *)
Lemma save_without_colon_succeeds :
  let run := process (Demo.env tick_clock) "save: report.txt" None Demo.w0 in
  ~ has_colon "report.txt"
  /\ envelope_field "status" (fst run) = Some (VStr "success")
  /\ files (snd run) !! "/data/files/report.txt"
     = Some "Please process this content".
Proof.
  cbv zeta. split; [|split; vm_compute; reflexivity].
  now apply PyStrFacts.no_colon_contains.
Qed.

(** ** Timestamped file names *)

Section Stamps.

Import PyStr PyStrFacts.

Lemma str_int_inj a b : str_int a = str_int b -> a = b.
Proof.
  unfold str_int. intros H.
  apply DecimalZ.to_int_inj.
  assert (Hnil : forall z, Z.to_int z <> Decimal.Pos Decimal.Nil
                           /\ Z.to_int z <> Decimal.Neg Decimal.Nil).
  { intros [|p|p]; split; simpl; try discriminate;
      intros [= Hp]; now apply (DecimalPos.Unsigned.to_uint_nonnil p). }
  destruct (Hnil a) as [Ha1 Ha2], (Hnil b) as [Hb1 Hb2].
  pose proof (NilZero.isi _ Ha1 Ha2) as Ia.
  pose proof (NilZero.isi _ Hb1 Hb2) as Ib.
  rewrite H in Ia. congruence.
Qed.

Lemma length_app (a b : string) :
  String.length (a ++ b) = String.length a + String.length b.
Proof.
  induction a as [|c a IH]; rewrite ?app_cons, ?app_empty; simpl; auto.
Qed.

Lemma app_inv_tail (a b s : string) : a ++ s = b ++ s -> a = b.
Proof.
  revert b. induction a as [|c a IH]; intros [|d b] H; auto.
  - apply (f_equal String.length) in H.
    rewrite app_empty, app_cons in H. simpl in H. rewrite length_app in H. lia.
  - apply (f_equal String.length) in H.
    rewrite app_empty, app_cons in H. simpl in H. rewrite length_app in H. lia.
  - rewrite !app_cons in H. injection H as -> H. f_equal. now apply IH.
Qed.

(** Two stamped names are equal only for equal stamps. *)
Lemma stamped_name_inj (prefix suffix : string) (a b : Z) :
  prefix ++ str_int a ++ suffix = prefix ++ str_int b ++ suffix -> a = b.
Proof.
  intros H. apply String.app_inj in H. apply app_inv_tail in H.
  now apply str_int_inj.
Qed.

Variable E : Env.

(** [_generate_content] writes one file, named by the first of its two
    clock readings. *)
Lemma generate_content_run c ctx w path :
  get_file_path E ("generated_" ++ str_int (clock E (ticks w)) ++ ".txt") Files
  = Return path ->
  write_refused E path = None ->
  exists r text,
    _generate_content E c ctx w
    = (Return r, {| files := <[path := text]> (files w);
                    ticks := S (S (ticks w)) |})
    /\ dict_get "output_file" (extra r) = Some (VStr path).
Proof.
  intros H Hw. unfold _generate_content. run_monad. cbn [ticks files].
  rewrite H, Hw. eexists _, _. split; reflexivity.
Qed.

(** [_extract_info] writes one file, named by the first of its two clock
    readings. *)
Lemma extract_info_run c ctx w path :
  get_file_path E ("extracted_" ++ str_int (clock E (ticks w)) ++ ".txt") Files
  = Return path ->
  write_refused E path = None ->
  exists r text,
    _extract_info E c ctx w
    = (Return r, {| files := <[path := text]> (files w);
                    ticks := S (S (ticks w)) |})
    /\ dict_get "output_file" (extra r) = Some (VStr path).
Proof.
  intros H Hw. unfold _extract_info.
  destruct (content_source c) as [[source query] is_remote].
  run_monad. cbn [ticks files].
  rewrite H, Hw. eexists _, _. split; reflexivity.
Qed.

(** One stamped call through the dispatcher. *)
Lemma stamped_call q ctx w operation text :
  never_raises E ->
  writes_output E operation (ticks w) ->
  _parse_query q w = (Return (operation, text), w) ->
  operation = "generate" \/ operation = "extract" ->
  exists v w' path,
    process E q ctx w = (v, w')
    /\ envelope_field "status" v = Some (VStr "success")
    /\ get_file_path E
         (stamp_stem operation ++ str_int (clock E (ticks w)) ++ ".txt") Files
       = Return path
    /\ result_field "output_file" v = Some (VStr path)
    /\ (exists text', files w' = <[path := text']> (files w))
    /\ ticks w' = S (S (S (ticks w))).
Proof.
  intros Hnr Hwr Hp Hop.
  destruct (resolve_content_returns E text w Hnr) as [c Hc].
  destruct Hnr as (Hpath & _ & _).
  destruct (Hpath (stamp_stem operation ++ str_int (clock E (ticks w)) ++ ".txt")
              Files) as [path Hg].
  assert (Hw : write_refused E path = None)
    by (destruct Hop as [-> | ->]; apply Hwr; exact Hg).
  assert (Hrun : exists handle r text',
             lookup_operation operation (supported_operations E) = Some handle
             /\ handle c ctx w
                = (Return r, {| files := <[path := text']> (files w);
                                ticks := S (S (ticks w)) |})
             /\ dict_get "output_file" (extra r) = Some (VStr path)).
  { destruct Hop as [-> | ->].
    - destruct (generate_content_run c ctx w path Hg Hw)
        as (r & text' & Hrun & Hf).
      now exists (_generate_content E), r, text'.
    - destruct (extract_info_run c ctx w path Hg Hw)
        as (r & text' & Hrun & Hf).
      now exists (_extract_info E), r, text'. }
  destruct Hrun as (handle & r & text' & Hl & Hrun & Hfield).
  eexists _, _, path. split.
  { exact (process_handled E q ctx w operation text handle c w r _
             Hp Hl Hc Hrun). }
  cbn [files ticks]. repeat split; eauto.
Qed.

(** C7, as amended. For [generate] and [extract], with collaborators
    that return, a path resolution that sends two names to two paths and
    a file system that accepts the two writes: two consecutive calls
    with the same query and context are both a success, each writes its
    output file, and when the clock readings that stamp the two names
    differ, the two paths differ and both files exist after the second
    call. *)
Theorem stamped_paths_distinct
    (q : string) (ctx : context) (w : world) (operation text : string) :
  never_raises E ->
  separates_names E ->
  writes_output E operation (ticks w) ->
  writes_output E operation (ticks w + 3) ->
  _parse_query q w = (Return (operation, text), w) ->
  operation = "generate" \/ operation = "extract" ->
  clock E (ticks w) <> clock E (ticks w + 3) ->
  exists v1 w1 v2 w2 path1 path2,
    process E q ctx w = (v1, w1)
    /\ process E q ctx w1 = (v2, w2)
    /\ envelope_field "status" v1 = Some (VStr "success")
    /\ envelope_field "status" v2 = Some (VStr "success")
    /\ result_field "output_file" v1 = Some (VStr path1)
    /\ result_field "output_file" v2 = Some (VStr path2)
    /\ is_Some (files w1 !! path1)
    /\ is_Some (files w2 !! path1)
    /\ is_Some (files w2 !! path2)
    /\ path1 <> path2.
Proof.
  intros Hnr Hsep Hwa Hwb Hp Hop Hclock.
  destruct (stamped_call q ctx w operation text Hnr Hwa Hp Hop)
    as (v1 & w1 & path1 & Hrun1 & Hs1 & Hg1 & Hf1 & [t1 Hw1] & Hticks).
  pose proof (parse_query_any_world q w _ w1 Hp) as Hp1.
  replace (ticks w + 3) with (ticks w1) in Hwb by lia.
  destruct (stamped_call q ctx w1 operation text Hnr Hwb Hp1 Hop)
    as (v2 & w2 & path2 & Hrun2 & Hs2 & Hg2 & Hf2 & [t2 Hw2] & _).
  assert (Hne : path1 <> path2).
  { intros <-. apply Hclock.
    pose proof (Hsep _ _ _ Hg1 Hg2) as Hname.
    apply stamped_name_inj in Hname. rewrite Hname, Hticks.
    f_equal. lia. }
  exists v1, w1, v2, w2, path1, path2.
  repeat split; auto.
  - rewrite Hw1, lookup_insert_eq. eauto.
  - rewrite Hw2, lookup_insert_ne, Hw1, lookup_insert_eq by auto. eauto.
  - rewrite Hw2, lookup_insert_eq. eauto.
Qed.

End Stamps.

(** C7, the claim fails.  For [download] the file name is the last part
    of the URL: two consecutive calls write the same path although the
    clock advanced.  For [generate] two consecutive calls in the same
    second stamp the same name. *)
Lemma repeated_calls_same_path :
  (let q := "download: https://example.com/data.json" in
   let run1 := process (Demo.env tick_clock) q None Demo.w0 in
   let run2 := process (Demo.env tick_clock) q None (snd run1) in
   envelope_field "status" (fst run1) = Some (VStr "success")
   /\ envelope_field "status" (fst run2) = Some (VStr "success")
   /\ result_field "download_path" (fst run1)
      = Some (VStr "/data/downloads/data.json")
   /\ result_field "download_path" (fst run2)
      = Some (VStr "/data/downloads/data.json"))
  /\ (let q := "generate: content about AI" in
      let run1 := process (Demo.env frozen_clock) q None Demo.w0 in
      let run2 := process (Demo.env frozen_clock) q None (snd run1) in
      envelope_field "status" (fst run1) = Some (VStr "success")
      /\ envelope_field "status" (fst run2) = Some (VStr "success")
      /\ result_field "output_file" (fst run1)
         = Some (VStr "/data/files/generated_1700000000.txt")
      /\ result_field "output_file" (fst run2)
         = Some (VStr "/data/files/generated_1700000000.txt")).
Proof.
  cbv zeta. repeat split; vm_compute; reflexivity.
Qed.

(** ** The context and the flow of control *)

Section ContextFlow.

Import PyStr PyStrFacts.

Variable E : Env.

Lemma lookup_operation_cases operation handle :
  lookup_operation operation (supported_operations E) = Some handle ->
  handle = _process_text E \/ handle = _analyze_data E
  \/ handle = _generate_content E \/ handle = _save_file E
  \/ handle = _download_content E \/ handle = _extract_info E.
Proof.
  unfold supported_operations. cbn [lookup_operation].
  repeat match goal with
         | |- context [String.eqb ?k operation] =>
             destruct (String.eqb k operation)
         end;
    intros [= <-]; tauto.
Qed.

Lemma process_text_flow c ctx1 ctx2 w :
  same_flow w (_process_text E c ctx1 w) (_process_text E c ctx2 w).
Proof.
  unfold _process_text. run_monad.
  destruct (get_file_path E "processed_text.txt" Temp) as [path|e].
  - destruct (write_refused E path); [now split|same_return].
  - now split.
Qed.

Lemma analyze_data_flow c ctx1 ctx2 w :
  same_flow w (_analyze_data E c ctx1 w) (_analyze_data E c ctx2 w).
Proof.
  unfold _analyze_data.
  destruct (content_source c) as [[source query] is_remote]. run_monad.
  destruct (get_file_path E "analysis_results.txt" Files) as [path|e].
  - destruct (write_refused E path); [now split|same_return].
  - now split.
Qed.

Lemma generate_content_flow c ctx1 ctx2 w :
  same_flow w (_generate_content E c ctx1 w) (_generate_content E c ctx2 w).
Proof.
  unfold _generate_content. run_monad. cbn [ticks files].
  destruct (get_file_path E _ Files) as [path|e].
  - destruct (write_refused E path); [now split|same_return].
  - now split.
Qed.

Lemma save_file_flow c ctx1 ctx2 w :
  same_flow w (_save_file E c ctx1 w) (_save_file E c ctx2 w).
Proof.
  unfold _save_file. run_monad.
  destruct (save_parts c w) as [[[filename file_content]|e] w1] eqn:Hparts.
  - assert (w1 = w) as ->.
    { unfold save_parts in Hparts. run_monad.
      destruct c as [s|r]; [|now injection Hparts].
      destruct (negb (contains_char ":" s)); [discriminate|].
      destruct (split1 ":" s) as [|a [|b [|]]]; now inversion Hparts. }
    destruct (negb (truthy filename) || negb (truthy file_content)).
    + now split.
    + destruct (get_file_path E (strip filename) Files) as [path|e].
      * destruct (write_refused E path); [now split|same_return].
      * now split.
  - now split.
Qed.

Lemma download_content_flow c ctx1 ctx2 w :
  same_flow w (_download_content E c ctx1 w) (_download_content E c ctx2 w).
Proof.
  unfold _download_content, download_url_invalid. run_monad.
  set (url := match c with CStr s => s | CRec r => c_file_ref r end).
  destruct (negb (truthy url)).
  - now split.
  - destruct (is_url E url) as [[|]|e]; cbn [negb]; try now split.
    destruct (get_file_path E _ Downloads) as [path|e].
    + destruct (write_refused E path); [now split|same_return].
    + now split.
Qed.

Lemma extract_info_flow c ctx1 ctx2 w :
  same_flow w (_extract_info E c ctx1 w) (_extract_info E c ctx2 w).
Proof.
  unfold _extract_info.
  destruct (content_source c) as [[source query] is_remote]. run_monad.
  cbn [ticks files].
  destruct (get_file_path E _ Files) as [path|e].
  - destruct (write_refused E path); [now split|same_return].
  - now split.
Qed.

(** C8. The context does not alter the flow of control.  For each of
    the six handlers and each content, two runs from the same world with
    any two contexts, [None] included, end the same way: both raise the
    same exception, or both return after one write to the same path,
    with the same output and the same fields; only the text written and
    the annotation fields [context_used], [context_sources],
    [enhancements] and [context_data] may differ. *)
Theorem context_never_alters_flow
    (operation : string) (handle : handler) (c : content)
    (ctx1 ctx2 : context) (w : world) :
  lookup_operation operation (supported_operations E) = Some handle ->
  same_flow w (handle c ctx1 w) (handle c ctx2 w).
Proof.
  intros H.
  destruct (lookup_operation_cases _ _ H) as [->|[->|[->|[->|[->| ->]]]]];
    auto using process_text_flow, analyze_data_flow, generate_content_flow,
      save_file_flow, download_content_flow, extract_info_flow.
Qed.

End ContextFlow.

(** ** Instances on the concrete environment *)

(** C2 on a query without a colon and on a query with one. *)
Lemma parse_query_contract_witness :
  (~ has_colon "Hello World "
   /\ _parse_query "Hello World " Demo.w0
      = (Return ("process", "Hello World"), Demo.w0))
  /\ (~ has_colon "  ANALYZE "
      /\ _parse_query ("  ANALYZE " ++ ":" ++ "  data.txt ") Demo.w0
         = (Return ("analyze", "data.txt"), Demo.w0)).
Proof.
  assert (H1 : ~ has_colon "Hello World ")
    by (apply PyStrFacts.no_colon_contains; reflexivity).
  assert (H2 : ~ has_colon "  ANALYZE ")
    by (apply PyStrFacts.no_colon_contains; reflexivity).
  split; (split; [assumption|]).
  - exact (proj1 parse_query_contract "Hello World " Demo.w0 H1).
  - exact (proj1 (proj2 parse_query_contract)
             "  ANALYZE " "  data.txt " Demo.w0 H2).
Defined.

(** C3 on the query [frobnicate: x]. *)
Lemma unsupported_operation_no_effect_witness :
  ~ In "frobnicate" known_operations
  /\ fst (process (Demo.env tick_clock) "frobnicate: x" None Demo.w0)
     = unsupported_envelope (Demo.env tick_clock) "frobnicate"
  /\ snd (process (Demo.env tick_clock) "frobnicate: x" None Demo.w0) = Demo.w0.
Proof.
  assert (H : ~ In "frobnicate" known_operations)
    by (simpl; intuition discriminate).
  split; [exact H|].
  destruct (unsupported_operation_no_effect (Demo.env tick_clock)
              "frobnicate: x" None Demo.w0 "frobnicate" "x" eq_refl H)
    as [-> _].
  split; reflexivity.
Defined.

(** C4 on the query [process: Hello World]. *)
Lemma success_envelope_shape_witness :
  let E := Demo.env tick_clock in
  let run := process E "process: Hello World" None Demo.w0 in
  exists operation content_text handle c result now w1 w2,
    _parse_query "process: Hello World" Demo.w0
    = (Return (operation, content_text), Demo.w0)
    /\ In operation known_operations
    /\ lookup_operation operation (supported_operations E) = Some handle
    /\ handle c None w1 = (Return result, w2)
    /\ envelope_data (fst run)
       = Some [("demo_result",
                VStr (PyStr.capitalize operation ++ ": " ++ output result));
               ("operation", VStr operation);
               ("result", VDict (result_dict result));
               ("timestamp", VStr now)].
Proof.
  cbv zeta.
  apply (success_envelope_shape (Demo.env tick_clock) "process: Hello World"
           None Demo.w0 _ _ (surjective_pairing _)).
  vm_compute. reflexivity.
Defined.

(** [save_report_hello] with an extractor that finds no reference. *)
Lemma save_report_hello_witness :
  exists v w',
    process (Demo.env_without_references tick_clock)
      "save: report.txt:Hello" None Demo.w0 = (v, w')
    /\ envelope_field "status" v = Some (VStr "success")
    /\ files w' = <["/data/files/report.txt" := "Hello"]> (files Demo.w0)
    /\ files w' !! "/data/files/report.txt" = Some "Hello"
    /\ result_field "size" v = Some (VInt 5).
Proof.
  exact (save_report_hello (Demo.env_without_references tick_clock) None
           Demo.w0 "/data/files/report.txt" eq_refl eq_refl eq_refl).
Defined.

(** [save_validation] on the content [report.txt]. *)
Lemma save_validation_witness :
  (~ has_colon "report.txt"
   /\ envelope_field "status"
        (fst (process (Demo.env_without_references tick_clock)
                "save: report.txt" None Demo.w0))
      = Some (VStr "error"))
  /\ _save_file (Demo.env tick_clock) (CStr "report.txt") None Demo.w0
     = (Raise (ValueError "Save operation requires format: filename:content"),
        Demo.w0)
  /\ _save_file (Demo.env tick_clock) (CStr ("report.txt" ++ ":" ++ "")) None
       Demo.w0
     = (Raise (ValueError "Both filename and content are required"), Demo.w0).
Proof.
  assert (H : ~ has_colon "report.txt")
    by (apply PyStrFacts.no_colon_contains; reflexivity).
  split; [split; [exact H|]|split].
  - exact (proj2 (proj1 (save_validation (Demo.env_without_references tick_clock))
                    "save: report.txt" "report.txt" None None Demo.w0
                    eq_refl H eq_refl eq_refl)).
  - exact (proj1 (proj2 (save_validation (Demo.env tick_clock)))
             "report.txt" None Demo.w0 H).
  - exact (proj2 (proj2 (save_validation (Demo.env tick_clock)))
             "report.txt" "" None Demo.w0 H (or_intror eq_refl)).
Defined.

(** The collaborators of the concrete environment return. *)
Lemma demo_never_raises clk : never_raises (Demo.env clk).
Proof.
  split; [|split].
  - intros name d. eexists. reflexivity.
  - intros text. cbn. unfold Demo.extract_file_reference.
    destruct (List.find Demo.url_like _); eexists; reflexivity.
  - intros s. eexists. reflexivity.
Qed.

(** Its path resolution sends two names to two paths. *)
Lemma demo_separates_names clk : separates_names (Demo.env clk).
Proof.
  intros name1 name2 path H1 H2. cbn in H1, H2. unfold Demo.get_file_path in *.
  rewrite <- H2 in H1. injection H1 as H1.
  repeat apply String.app_inj in H1. exact H1.
Qed.

(** C7, as amended, on two [generate] calls one clock reading apart. *)
Lemma stamped_paths_distinct_witness :
  let E := Demo.env tick_clock in
  let q := "generate: content about AI" in
  exists v1 w1 v2 w2 path1 path2,
    process E q None Demo.w0 = (v1, w1)
    /\ process E q None w1 = (v2, w2)
    /\ envelope_field "status" v1 = Some (VStr "success")
    /\ envelope_field "status" v2 = Some (VStr "success")
    /\ result_field "output_file" v1 = Some (VStr path1)
    /\ result_field "output_file" v2 = Some (VStr path2)
    /\ is_Some (files w1 !! path1)
    /\ is_Some (files w2 !! path1)
    /\ is_Some (files w2 !! path2)
    /\ path1 <> path2.
Proof.
  cbv zeta.
  assert (Ha : writes_output (Demo.env tick_clock) "generate" (ticks Demo.w0))
    by demo_writes.
  assert (Hb : writes_output (Demo.env tick_clock) "generate"
                 (ticks Demo.w0 + 3)) by demo_writes.
  apply (stamped_paths_distinct (Demo.env tick_clock)
           "generate: content about AI" None Demo.w0
           "generate" "content about AI"
           (demo_never_raises tick_clock) (demo_separates_names tick_clock)
           Ha Hb eq_refl (or_introl eq_refl)).
  vm_compute. discriminate.
Defined.

(** C8 on [_analyze_data], without a context and with one. *)
Lemma context_never_alters_flow_witness :
  let E := Demo.env tick_clock in
  same_flow Demo.w0
    (_analyze_data E (CStr "sales figures") None Demo.w0)
    (_analyze_data E (CStr "sales figures")
       (Some [("reader", VDict [("content", VStr "text"); ("metadata", VNone)])])
       Demo.w0).
Proof.
  exact (context_never_alters_flow (Demo.env tick_clock) "analyze"
           (_analyze_data (Demo.env tick_clock)) (CStr "sales figures") None
           (Some [("reader", VDict [("content", VStr "text"); ("metadata", VNone)])])
           Demo.w0 eq_refl).
Defined.

(** C9, as amended, on the query [download: not_a_url]. *)
Lemma error_envelope_shape_witness :
  let run := process (Demo.env tick_clock) "download: not_a_url" None Demo.w0 in
  exists data,
    envelope_data (fst run) = Some data
    /\ dict_mem "suggestion" data = true
    /\ ((dict_get "error_type" data = Some (VStr "unexpected_error")
         /\ dict_get "query_received" data = Some (VStr "download: not_a_url"))
        \/ (exists operation content_text,
               _parse_query "download: not_a_url" Demo.w0
               = (Return (operation, content_text), Demo.w0)
               /\ ~ In operation known_operations
               /\ dict_get "supported_operations" data
                  = Some (VList (map VStr known_operations))
               /\ dict_get "error_type" data = None)).
Proof.
  cbv zeta.
  apply (error_envelope_shape (Demo.env tick_clock) "download: not_a_url"
           None Demo.w0 _ _ (surjective_pairing _)).
  vm_compute. reflexivity.
Defined.

(** C10 on the query [ : hello]. *)
Lemma blank_operation_unsupported_witness :
  _parse_query (" " ++ ":" ++ " hello") Demo.w0 = (Return ("", "hello"), Demo.w0)
  /\ process (Demo.env tick_clock) (" " ++ ":" ++ " hello") None Demo.w0
     = (unsupported_envelope (Demo.env tick_clock) "", Demo.w0).
Proof.
  exact (blank_operation_unsupported (Demo.env tick_clock) " " " hello" None
           Demo.w0 eq_refl).
Defined.

(** C9, the claim fails: the envelope for an unsupported operation has
    status [error] and a data mapping without [error_type]. *)
Lemma unsupported_envelope_lacks_error_type :
  let run := process (Demo.env tick_clock) "frobnicate: x" None Demo.w0 in
  envelope_field "status" (fst run) = Some (VStr "error")
  /\ exists data,
       envelope_data (fst run) = Some data
       /\ dict_get "error_type" data = None
       /\ dict_keys data = ["supported_operations"; "suggestion"].
Proof.
  cbv zeta. split; [vm_compute; reflexivity|].
  eexists. repeat split; vm_compute; reflexivity.
Qed.

(** ** More on the parser *)

Module ParserFacts.

Import PyStr PyStrFacts.

Lemma lstrip_clean s : starts_clean s -> lstrip s = s.
Proof. destruct s as [|c s]; [reflexivity|]. simpl. now intros ->. Qed.

Lemma rstrip_clean s : ends_clean s -> rstrip s = s.
Proof.
  induction s as [|c s IH]; [reflexivity|].
  destruct s as [|d s].
  - simpl. now intros ->.
  - intros H. change (ends_clean (String d s)) in H.
    change (rstrip (String c (String d s)))
      with (match rstrip (String d s) with
            | EmptyString =>
                if is_space c then EmptyString else String c EmptyString
            | r => String c r
            end).
    now rewrite (IH H).
Qed.

Lemma strip_trimmed s : trimmed (strip s).
Proof.
  destruct (strip_decompose s) as (l & r & _ & _ & _ & H1 & H2). now split.
Qed.

Lemma strip_of_trimmed s : trimmed s -> strip s = s.
Proof.
  intros [H1 H2]. unfold strip. rewrite (lstrip_clean _ H1).
  now apply rstrip_clean.
Qed.

Lemma strip_strip s : strip (strip s) = strip s.
Proof. apply strip_of_trimmed, strip_trimmed. Qed.

Lemma is_space_lower_char c : is_space (lower_char c) = is_space c.
Proof. destruct c as [[] [] [] [] [] [] [] []]; reflexivity. Qed.

Lemma lower_char_lower_char c : lower_char (lower_char c) = lower_char c.
Proof. destruct c as [[] [] [] [] [] [] [] []]; reflexivity. Qed.

Lemma colon_lower_char c : Ascii.eqb (lower_char c) ":" = Ascii.eqb c ":".
Proof. destruct c as [[] [] [] [] [] [] [] []]; reflexivity. Qed.

Lemma lower_lower s : lower (lower s) = lower s.
Proof.
  induction s as [|c s IH]; [reflexivity|].
  simpl. now rewrite lower_char_lower_char, IH.
Qed.

Lemma lstrip_lower s : lstrip (lower s) = lower (lstrip s).
Proof.
  induction s as [|c s IH]; [reflexivity|].
  simpl. rewrite is_space_lower_char. now destruct (is_space c).
Qed.

Lemma rstrip_lower s : rstrip (lower s) = lower (rstrip s).
Proof.
  induction s as [|c s IH]; [reflexivity|].
  simpl. rewrite IH, is_space_lower_char.
  destruct (rstrip s); [now destruct (is_space c)|reflexivity].
Qed.

Lemma strip_lower s : strip (lower s) = lower (strip s).
Proof. unfold strip. now rewrite lstrip_lower, rstrip_lower. Qed.

Lemma contains_colon_lower s :
  contains_char ":" (lower s) = contains_char ":" s.
Proof.
  induction s as [|c s IH]; [reflexivity|].
  simpl. now rewrite colon_lower_char, IH.
Qed.

Lemma contains_char_app_false sep (a b : string) :
  contains_char sep (a ++ b) = false ->
  contains_char sep a = false /\ contains_char sep b = false.
Proof.
  induction a as [|c a IH]; rewrite ?app_cons, ?app_empty; simpl; [auto|].
  intros [Hc Hab]%orb_false_iff. rewrite Hc. now apply IH.
Qed.

Lemma contains_char_strip sep s :
  contains_char sep s = false -> contains_char sep (strip s) = false.
Proof.
  intros H. destruct (strip_decompose s) as (l & r & Hs & _).
  rewrite Hs in H.
  apply contains_char_app_false in H as [_ H].
  now apply contains_char_app_false in H as [H _].
Qed.

Lemma no_upper_lower s : no_upper (lower s) = true.
Proof. apply lower_spec. Qed.

Lemma strip_space_app s : strip (" " ++ s) = strip s.
Proof. reflexivity. Qed.

(** What [_parse_query] returns is in normal form. *)
Lemma parse_query_cases q w operation content_text :
  _parse_query q w = (Return (operation, content_text), w) ->
  (contains_char ":" q = false /\ operation = "process"
   /\ content_text = strip q)
  \/ (exists pre post,
         q = pre ++ ":" ++ post /\ contains_char ":" pre = false
         /\ operation = lower (strip pre) /\ content_text = strip post).
Proof.
  destruct (contains_char ":" q) eqn:Hq.
  - destruct (contains_char_split _ _ Hq) as (pre & post & -> & Hpre).
    intros H. right. exists pre, post.
    change (pre ++ String ":" post) with (pre ++ ":" ++ post) in H.
    rewrite (parse_colon pre post w Hpre) in H. injection H as <- <-.
    auto.
  - rewrite (parse_no_colon q w Hq). intros [= <- <-]. now left.
Qed.

End ParserFacts.

Section ParserNormalForm.

Import PyStr PyStrFacts ParserFacts.

(** X1. The parser returns for every query, without touching the
    world: the unpacking of the split never fails.  The operation it
    returns has no colon, no ASCII upper-case letter and no white space
    at either end; the content has no white space at either end. *)
Theorem parse_query_normal_form (q : string) (w : world) :
  exists operation content_text,
    _parse_query q w = (Return (operation, content_text), w)
    /\ contains_char ":" operation = false
    /\ no_upper operation = true
    /\ trimmed operation
    /\ trimmed content_text.
Proof.
  destruct (parse_query_returns q w) as (operation & content_text & Hp).
  exists operation, content_text. split; [exact Hp|].
  destruct (parse_query_cases _ _ _ _ Hp)
    as [(_ & -> & ->)|(pre & post & _ & Hpre & -> & ->)].
  - repeat split; try reflexivity. all: apply strip_trimmed.
  - rewrite contains_colon_lower, (contains_char_strip _ _ Hpre), no_upper_lower.
    rewrite <- strip_lower.
    repeat split; apply strip_trimmed.
Qed.

(** X2. Parsing is a normalisation: the query [operation: content]
    rebuilt from a parsed pair parses to the same pair. *)
Theorem parse_query_canonical
    (q : string) (w : world) (operation content_text : string) :
  _parse_query q w = (Return (operation, content_text), w) ->
  _parse_query (canonical_query operation content_text) w
  = (Return (operation, content_text), w).
Proof.
  intros Hp. unfold canonical_query.
  change (operation ++ ": " ++ content_text)
    with (operation ++ ":" ++ (" " ++ content_text)).
  destruct (parse_query_cases _ _ _ _ Hp)
    as [(_ & -> & ->)|(pre & post & _ & Hpre & -> & ->)].
  - rewrite parse_colon by reflexivity.
    now rewrite strip_space_app, strip_strip.
  - rewrite parse_colon
      by now rewrite contains_colon_lower, (contains_char_strip _ _ Hpre).
    now rewrite strip_space_app, strip_strip, strip_lower, strip_strip,
      lower_lower.
Qed.

End ParserNormalForm.

(** X2 on a query with capitals and stray blanks. *)
Lemma parse_query_canonical_witness :
  _parse_query (canonical_query "analyze" "data.txt") Demo.w0
  = (Return ("analyze", "data.txt"), Demo.w0).
Proof.
  exact (parse_query_canonical "  ANALYZE :  data.txt " Demo.w0
           "analyze" "data.txt" eq_refl).
Defined.

(** ** What a call does to the files *)

Lemma bind_raise_inv {A B : Type} (m : M A) (k : A -> M B) w e w' :
  bind m k w = (Raise e, w') ->
  m w = (Raise e, w')
  \/ exists a w1, m w = (Return a, w1) /\ k a w1 = (Raise e, w').
Proof.
  unfold bind. destruct (m w) as [[a|e0] w1]; [eauto|].
  intros [= <- <-]. now left.
Qed.

Section Effects.

Import PyStr PyStrFacts ParserFacts.

Variable E : Env.

(** The first statement of [_save_file] has no effect. *)
Lemma save_parts_world c w o w' : save_parts c w = (o, w') -> w' = w.
Proof.
  unfold save_parts. run_monad.
  destruct c as [s|r]; [|now intros [= _ <-]].
  destruct (negb (contains_char ":" s)); [now intros [= _ <-]|].
  destruct (split1 ":" s) as [|a [|b [|]]]; now intros [= _ <-].
Qed.


Lemma process_text_effect c ctx w :
  handler_effect w (_process_text E c ctx w).
Proof.
  unfold _process_text. run_monad.
  destruct (get_file_path E "processed_text.txt" Temp) as [path|e];
    [destruct (write_refused E path);
       [reflexivity|effect_return "temp_file" ltac:(apply strip_trimmed)]
      |reflexivity].
Qed.

Lemma analyze_data_effect c ctx w :
  handler_effect w (_analyze_data E c ctx w).
Proof.
  unfold _analyze_data.
  destruct (content_source c) as [[source query] is_remote]. run_monad.
  destruct (get_file_path E "analysis_results.txt" Files) as [path|e];
    [destruct (write_refused E path);
       [reflexivity|effect_return "results_file" ltac:(apply strip_trimmed)]
      |reflexivity].
Qed.

Lemma generate_content_effect c ctx w :
  handler_effect w (_generate_content E c ctx w).
Proof.
  unfold _generate_content. run_monad. cbn [ticks files].
  destruct (get_file_path E _ Files) as [path|e];
    [destruct (write_refused E path);
       [reflexivity|effect_return "output_file" ltac:(apply strip_trimmed)]
      |reflexivity].
Qed.

Lemma extract_info_effect c ctx w :
  handler_effect w (_extract_info E c ctx w).
Proof.
  unfold _extract_info.
  destruct (content_source c) as [[source query] is_remote]. run_monad.
  cbn [ticks files].
  destruct (get_file_path E _ Files) as [path|e];
    [destruct (write_refused E path);
       [reflexivity|effect_return "output_file" ltac:(apply strip_trimmed)]
      |reflexivity].
Qed.

Lemma save_file_effect c ctx w :
  handler_effect w (_save_file E c ctx w).
Proof.
  unfold _save_file, bind.
  destruct (save_parts c w) as [[[filename file_content]|e] w1] eqn:Hparts;
    pose proof (save_parts_world _ _ _ _ Hparts) as ->; [|reflexivity].
  destruct (negb (truthy filename) || negb (truthy file_content));
    [reflexivity|].
  run_monad.
  destruct (get_file_path E (strip filename) Files) as [path|e];
    [destruct (write_refused E path);
       [reflexivity|effect_return "file_path" ltac:(apply strip_trimmed)]
      |reflexivity].
Qed.

Lemma download_content_effect c ctx w :
  handler_effect w (_download_content E c ctx w).
Proof.
  unfold _download_content, download_url_invalid. run_monad.
  set (url := match c with CStr s => s | CRec r => c_file_ref r end).
  destruct (negb (truthy url)); [reflexivity|].
  destruct (is_url E url) as [[|]|e]; cbn [negb]; try reflexivity.
  destruct (get_file_path E _ Downloads) as [path|e];
    [destruct (write_refused E path);
       [reflexivity|effect_return "download_path" ltac:(apply strip_trimmed)]
      |reflexivity].
Qed.

(** Every handler of the table. *)
Lemma handler_effects operation handle c ctx w :
  lookup_operation operation (supported_operations E) = Some handle ->
  handler_effect w (handle c ctx w).
Proof.
  intros H.
  destruct (lookup_operation_cases E _ _ H) as [->|[->|[->|[->|[->| ->]]]]];
    auto using process_text_effect, analyze_data_effect,
      generate_content_effect, save_file_effect, download_content_effect,
      extract_info_effect.
Qed.

(** What the [try] block can raise. *)
Lemma process_try_raise q ctx w e w' :
  process_try E q ctx w = (Raise e, w') ->
  exists operation content_text handle,
    _parse_query q w = (Return (operation, content_text), w)
    /\ lookup_operation operation (supported_operations E) = Some handle
    /\ ((resolve_content E content_text w = (Raise e, w') /\ w' = w)
        \/ (exists c, resolve_content E content_text w = (Return c, w)
                      /\ handle c ctx w = (Raise e, w'))).
Proof.
  unfold process_try. intros H.
  destruct (parse_query_returns q w) as (operation & content_text & Hp).
  rewrite (bind_return _ _ _ _ _ Hp) in H.
  exists operation, content_text.
  destruct (lookup_operation operation (supported_operations E)) as [handle|];
    [|discriminate H].
  exists handle. split; [exact Hp|]. split; [reflexivity|].
  apply bind_raise_inv in H as [H|(c & w1 & Hc & H)].
  - left. split; [exact H|]. now apply resolve_content_world in H.
  - right. pose proof (resolve_content_world E _ _ _ _ Hc) as ->.
    exists c. split; [exact Hc|].
    apply bind_raise_inv in H as [H|(r & w2 & Hh & H)]; [exact H|].
    apply bind_raise_inv in H as [H|(now & w3 & Ht & H)]; discriminate H.
Qed.

(** An error envelope leaves the files as they were. *)
Lemma error_keeps_files q ctx w v w' :
  process E q ctx w = (v, w') ->
  envelope_field "status" v = Some (VStr "error") ->
  files w' = files w.
Proof.
  unfold process. intros Hproc Hstatus.
  destruct (process_try E q ctx w) as [[v0|e] w0] eqn:Htry;
    injection Hproc as <- <-.
  - apply process_try_return in Htry
      as (operation & content_text & _
          & [(_ & _ & ->)|(h & c & r & now & w1 & w2 & _ & _ & _ & _ & ->)]);
      [reflexivity|discriminate Hstatus].
  - apply process_try_raise in Htry
      as (operation & content_text & handle & _ & Hl
          & [[_ ->]|(c & _ & Hh)]); [reflexivity|].
    pose proof (handler_effects operation handle c ctx w Hl) as Heff.
    now rewrite Hh in Heff.
Qed.

(** X3. A call that ends in an error envelope has written no file: the
    files are those it started from, whether the operation was not
    supported, a validation failed or a collaborator raised. *)
Theorem error_leaves_files
    (q : string) (ctx : context) (w : world) (v : pyval) (w' : world) :
  process E q ctx w = (v, w') ->
  envelope_field "status" v = Some (VStr "error") ->
  files w' = files w.
Proof.
  unfold process. intros Hproc Hstatus.
  destruct (process_try E q ctx w) as [[v0|e] w0] eqn:Htry;
    injection Hproc as <- <-.
  - apply process_try_return in Htry
      as (operation & content_text & _
          & [(_ & _ & ->)|(h & c & r & now & w1 & w2 & _ & _ & _ & _ & ->)]);
      [reflexivity|discriminate Hstatus].
  - apply process_try_raise in Htry
      as (operation & content_text & handle & _ & Hl
          & [[_ ->]|(c & _ & Hh)]); [reflexivity|].
    pose proof (handler_effects operation handle c ctx w Hl) as Heff.
    now rewrite Hh in Heff.
Qed.

(** X4. A call that ends in a success envelope has written exactly one
    file: the files are those it started from with one text stored at
    one path; the text has no white space at either end, the path is
    reported in [data.result] under one of the path keys, and the clock
    was read at least once and at most three times. *)
Theorem success_writes_one_file
    (q : string) (ctx : context) (w : world) (v : pyval) (w' : world) :
  process E q ctx w = (v, w') ->
  envelope_field "status" v = Some (VStr "success") ->
  exists key path text,
    In key path_keys
    /\ result_field key v = Some (VStr path)
    /\ files w' = <[path := text]> (files w)
    /\ trimmed text
    /\ ticks w < ticks w' <= ticks w + 3.
Proof.
  unfold process. intros Hproc Hstatus.
  destruct (process_try E q ctx w) as [[v0|e] w0] eqn:Htry;
    injection Hproc as <- <-; [|discriminate Hstatus].
  apply process_try_return in Htry
    as (operation & content_text & _
        & [(_ & -> & _)|(h & c & r & now & w1 & w2 & Hl & Hc & Hh & Ht & ->)]);
    [discriminate Hstatus|].
  pose proof (resolve_content_world E _ _ _ _ Hc) as ->.
  pose proof (handler_effects operation h c ctx w Hl) as Heff.
  rewrite Hh in Heff.
  destruct Heff as (key & path & text & Hkey & Hget & Hfiles & Htrim & Hticks).
  unfold time_strftime in Ht. injection Ht as _ <-. cbn [files ticks].
  exists key, path, text.
  split; [exact Hkey|]. split; [|repeat split; try apply Htrim; auto; lia].
  unfold path_keys in Hkey. simpl in Hkey.
  destruct Hkey as [<-|[<-|[<-|[<-|[<-|[]]]]]]; rewrite <- Hget; reflexivity.
Qed.

End Effects.

(** ** Which calls fail *)

Section Failures.

Import PyStr PyStrFacts ParserFacts.

Variable E : Env.

Lemma lookup_operation_by_name operation handle :
  lookup_operation operation (supported_operations E) = Some handle ->
  (operation = "process" /\ handle = _process_text E)
  \/ (operation = "analyze" /\ handle = _analyze_data E)
  \/ (operation = "generate" /\ handle = _generate_content E)
  \/ (operation = "save" /\ handle = _save_file E)
  \/ (operation = "download" /\ handle = _download_content E)
  \/ (operation = "extract" /\ handle = _extract_info E).
Proof.
  unfold supported_operations. cbn [lookup_operation].
  repeat match goal with
         | |- context [String.eqb ?k operation] =>
             destruct (String.eqb_spec k operation) as [<-|]
         end;
    intros [= <-]; tauto.
Qed.

(** The four handlers that validate nothing return whenever path
    resolution does and the write is accepted. *)
Lemma unvalidated_handler_returns operation handle c ctx w :
  (forall name d, exists path, get_file_path E name d = Return path) ->
  writes_output E operation (ticks w) ->
  In operation unvalidated_operations ->
  lookup_operation operation (supported_operations E) = Some handle ->
  exists r w', handle c ctx w = (Return r, w').
Proof.
  intros Hpath Hwr Hop Hl.
  destruct (lookup_operation_by_name _ _ Hl)
    as [[-> ->]|[[-> ->]|[[-> ->]|[[-> ->]|[[-> ->]|[-> ->]]]]]];
    unfold unvalidated_operations in Hop; simpl in Hop;
    try (exfalso; intuition discriminate).
  - unfold _process_text. run_monad.
    destruct (Hpath "processed_text.txt" Temp) as [p Hp].
    rewrite Hp, (Hwr p Hp). eauto.
  - unfold _analyze_data.
    destruct (content_source c) as [[source query] is_remote]. run_monad.
    destruct (Hpath "analysis_results.txt" Files) as [p Hp].
    rewrite Hp, (Hwr p Hp). eauto.
  - unfold _generate_content. run_monad. cbn [ticks files].
    destruct (Hpath ("generated_" ++ str_int (clock E (ticks w)) ++ ".txt") Files)
      as [p Hp].
    rewrite Hp, (Hwr p Hp). eauto.
  - unfold _extract_info.
    destruct (content_source c) as [[source query] is_remote]. run_monad.
    cbn [ticks files].
    destruct (Hpath ("extracted_" ++ str_int (clock E (ticks w)) ++ ".txt") Files)
      as [p Hp].
    rewrite Hp, (Hwr p Hp). eauto.
Qed.

(** X5. With collaborators that return and a file system that accepts
    the write of the operation's output, a query whose operation is
    [process], [analyze], [generate] or [extract] is always a success,
    whatever its content and context: these handlers validate nothing,
    and the empty query is a [process] of the empty text. *)
Theorem unvalidated_operations_succeed
    (q : string) (ctx : context) (w : world) (operation content_text : string) :
  never_raises E ->
  writes_output E operation (ticks w) ->
  _parse_query q w = (Return (operation, content_text), w) ->
  In operation unvalidated_operations ->
  envelope_field "status" (fst (process E q ctx w)) = Some (VStr "success").
Proof.
  intros Hnr Hwr Hp Hop.
  destruct (resolve_content_returns E content_text w Hnr) as [c Hc].
  assert (Hknown : In operation known_operations).
  { revert Hop. unfold unvalidated_operations, known_operations. simpl. tauto. }
  destruct (lookup_operation_known E _ Hknown) as [handle Hl].
  destruct (unvalidated_handler_returns operation handle c ctx w
              (proj1 Hnr) Hwr Hop Hl) as (r & w' & Hh).
  now rewrite (process_handled E q ctx w operation content_text handle c w r w'
                 Hp Hl Hc Hh).
Qed.

(** A handler that raises, when the collaborators return: a validation
    of [save] or of [download] failed, before any effect, or the file
    system refused the write. *)
Lemma handler_raise_kinds operation handle c ctx w e w' :
  never_raises E ->
  lookup_operation operation (supported_operations E) = Some handle ->
  handle c ctx w = (Raise e, w') ->
  (w' = w /\ operation = "save"
   /\ (e = ValueError "Save operation requires format: filename:content"
       \/ e = ValueError "Both filename and content are required"))
  \/ (w' = w /\ operation = "download"
      /\ e = ValueError "Valid URL is required for download operation")
  \/ (exists path, write_refused E path = Some e).
Proof.
  intros (Hpath & _ & Hurl) Hl.
  destruct (lookup_operation_by_name _ _ Hl)
    as [[-> ->]|[[-> ->]|[[-> ->]|[[-> ->]|[[-> ->]|[-> ->]]]]]].
  - unfold _process_text. run_monad.
    destruct (Hpath "processed_text.txt" Temp) as [p ->].
    destruct (write_refused E p) eqn:Hw; [|discriminate].
    intros [= <- _]. eauto.
  - unfold _analyze_data.
    destruct (content_source c) as [[source query] is_remote]. run_monad.
    destruct (Hpath "analysis_results.txt" Files) as [p ->].
    destruct (write_refused E p) eqn:Hw; [|discriminate].
    intros [= <- _]. eauto.
  - unfold _generate_content. run_monad. cbn [ticks files].
    destruct (Hpath ("generated_" ++ str_int (clock E (ticks w)) ++ ".txt") Files)
      as [p ->].
    destruct (write_refused E p) eqn:Hw; [|discriminate].
    intros [= <- _]. eauto.
  - unfold _save_file. intros H.
    apply bind_raise_inv in H as [H|([filename file_content] & w1 & Hparts & H)].
    + pose proof (save_parts_world _ _ _ _ H) as ->.
      unfold save_parts in H. destruct c as [s|r]; [|discriminate H].
      destruct (contains_char ":" s) eqn:Hs; cbn [negb] in H.
      * destruct (contains_char_split _ _ Hs) as (pre & post & -> & Hpre).
        rewrite (split1_first _ _ _ Hpre) in H. discriminate H.
      * injection H as <-. left. auto.
    + pose proof (save_parts_world _ _ _ _ Hparts) as ->.
      destruct (negb (truthy filename) || negb (truthy file_content)).
      * injection H as <- <-. left. auto.
      * revert H. run_monad.
        destruct (Hpath (strip filename) Files) as [p ->].
        destruct (write_refused E p) eqn:Hw; [|discriminate].
        intros [= <- _]. eauto.
  - unfold _download_content, download_url_invalid. run_monad.
    set (url := match c with CStr s => s | CRec r => c_file_ref r end).
    destruct (negb (truthy url)); [intros [= <- <-]; auto|].
    destruct (Hurl url) as [[|] ->]; cbn [negb]; [|intros [= <- <-]; auto].
    destruct (Hpath (if truthy (PyPath.name url) then PyPath.name url
                     else "downloaded_content.txt") Downloads) as [p ->].
    destruct (write_refused E p) eqn:Hw; [|discriminate].
    intros [= <- _]. eauto.
  - unfold _extract_info.
    destruct (content_source c) as [[source query] is_remote]. run_monad.
    cbn [ticks files].
    destruct (Hpath ("extracted_" ++ str_int (clock E (ticks w)) ++ ".txt") Files)
      as [p ->].
    destruct (write_refused E p) eqn:Hw; [|discriminate].
    intros [= <- _]. eauto.
Qed.

(** X6. With collaborators that return, a call ends in an error
    envelope in four ways only: the operation is not supported, [save]
    rejects its content with one of its two messages, [download] rejects
    its URL, or the file system refuses the write of the handler and the
    envelope carries its exception.  The files are unchanged in all
    four; in the first three the clock was not read either. *)
Theorem error_kinds
    (q : string) (ctx : context) (w : world) (v : pyval) (w' : world) :
  never_raises E ->
  process E q ctx w = (v, w') ->
  envelope_field "status" v = Some (VStr "error") ->
  files w' = files w
  /\ exists operation content_text,
       _parse_query q w = (Return (operation, content_text), w)
       /\ ((~ In operation known_operations
            /\ v = unsupported_envelope E operation /\ w' = w)
           \/ (operation = "save"
               /\ (v = exception_envelope q
                         (ValueError "Save operation requires format: filename:content")
                   \/ v = exception_envelope q
                            (ValueError "Both filename and content are required"))
               /\ w' = w)
           \/ (operation = "download"
               /\ v = exception_envelope q
                        (ValueError "Valid URL is required for download operation")
               /\ w' = w)
           \/ (In operation known_operations
               /\ exists path e,
                    write_refused E path = Some e
                    /\ v = exception_envelope q e)).
Proof.
  intros Hnr Hproc Hstatus.
  split; [exact (error_keeps_files E q ctx w v w' Hproc Hstatus)|].
  unfold process in Hproc.
  destruct (process_try E q ctx w) as [[v0|e] w0] eqn:Htry;
    injection Hproc as <- <-.
  - apply process_try_return in Htry
      as (operation & content_text & Hp
          & [(Hl & -> & ->)|(h & c & r & now & w1 & w2 & _ & _ & _ & _ & ->)]);
      [|discriminate Hstatus].
    exists operation, content_text.
    split; [exact Hp|]. left. split; [|auto].
    intros Hin. destruct (lookup_operation_known E _ Hin) as [h Hh]. congruence.
  - apply process_try_raise in Htry
      as (operation & content_text & handle & Hp & Hl
          & [[Hc _]|(c & Hc & Hh)]).
    { destruct (resolve_content_returns E content_text w Hnr) as [c Hc'].
      congruence. }
    exists operation, content_text. split; [exact Hp|].
    destruct (handler_raise_kinds _ _ _ _ _ _ _ Hnr Hl Hh)
      as [(-> & -> & He)|[(-> & -> & ->)|(path & Hw)]].
    + right. left. destruct He as [-> | ->]; auto.
    + right. right. left. auto.
    + right. right. right. split; [eapply lookup_operation_some; eauto|].
      eauto.
Qed.

End Failures.

(** ** Step 4: the content record *)

Section ContentRecord.

Import PyStr PyStrFacts ParserFacts.

Variable E : Env.

Lemma truthy_nonempty s : truthy s = true <-> s <> "".
Proof. destruct s; simpl; split; congruence. Qed.

(** X7. Step 4 hands the handler either the content itself, when the
    extractor returns [None] or the empty string, or a record whose file
    reference is the non-empty token the extractor returned, whose
    [is_url] flag is the URL predicate's answer for it, and whose query
    is never empty and has no white space at either end.  Step 4 changes
    nothing in the world. *)
Theorem resolve_content_record
    (text : string) (w : world) (c : content) (w' : world) :
  resolve_content E text w = (Return c, w') ->
  w' = w
  /\ ((c = CStr text
       /\ exists ref, extract_file_reference E text = Return ref
                      /\ ref_truthy ref = false)
      \/ (exists r,
             c = CRec r
             /\ extract_file_reference E text = Return (Some (c_file_ref r))
             /\ c_file_ref r <> ""
             /\ get_file_path E (c_file_ref r) Files = Return (c_file_path r)
             /\ is_url E (c_file_ref r) = Return (c_is_url r)
             /\ c_query r <> ""
             /\ trimmed (c_query r)
             /\ (strip (remove_all (c_file_ref r) text) <> "" ->
                 c_query r = strip (remove_all (c_file_ref r) text)))).
Proof.
  intros H. split; [now apply resolve_content_world in H|].
  unfold resolve_content in H. revert H. run_monad.
  destruct (extract_file_reference E text) as [[ref|]|e] eqn:Hext;
    [|intros [= <- _]; left; split; [reflexivity|now exists None]
     |discriminate].
  destruct (truthy ref) eqn:Href;
    [|intros [= <- _]; left; split; [reflexivity|now exists (Some ref)]].
  destruct (get_file_path E ref Files) as [path|e] eqn:Hpath; [|discriminate].
  destruct (is_url E ref) as [b|e] eqn:Hurl; [|discriminate].
  intros [= <- _]. right. eexists. split; [reflexivity|]. cbn.
  repeat split; auto.
  - now apply truthy_nonempty.
  - destruct (truthy (strip (remove_all ref text))) eqn:Hrest;
      [now apply truthy_nonempty|discriminate].
  - destruct (truthy (strip (remove_all ref text))); [apply strip_trimmed|].
    reflexivity.
  - destruct (truthy (strip (remove_all ref text))); [apply strip_trimmed|].
    simpl. reflexivity.
  - intros Hne. apply truthy_nonempty in Hne. now rewrite Hne.
Qed.

Lemma prefix_app (a b : string) : String.prefix a (a ++ b) = true.
Proof.
  induction a as [|c a IH]; rewrite ?app_cons, ?app_empty.
  - now destruct b.
  - simpl. now destruct (ascii_dec c c).
Qed.

(** Removing a reference from a text made of the reference and white
    space leaves white space. *)
Lemma remove_all_only_reference ref l r :
  ref <> "" -> all_space l = true -> all_space r = true ->
  (forall c ref', ref = String c ref' -> is_space c = false) ->
  strip (remove_all ref (l ++ ref ++ r)) = "".
Proof.
  intros Hne Hl Hr Hfirst.
  destruct ref as [|c ref']; [congruence|]. clear Hne.
  pose proof (Hfirst c ref' eq_refl) as Hc.
  unfold remove_all.
  assert (Hscan : forall l', all_space l' = true ->
            remove_from (String c ref') (l' ++ String c ref' ++ r) 0
            = l' ++ remove_from (String c ref') r 0).
  { induction l' as [|d l' IH]; intros Hl'.
    - rewrite !app_empty, app_cons.
      change (remove_from (String c ref') (String c (ref' ++ r)) 0)
        with (if String.prefix (String c ref') (String c (ref' ++ r))
              then remove_from (String c ref') (ref' ++ r)
                     (String.length (String c ref') - 1)
              else String c (remove_from (String c ref') (ref' ++ r) 0)).
      rewrite <- app_cons, prefix_app.
      replace (String.length (String c ref') - 1) with (String.length ref')
        by (simpl; lia).
      clear. generalize (String c ref') as pat. revert r.
      induction ref' as [|x ref' IH]; intros r pat.
      + rewrite !app_empty. reflexivity.
      + rewrite app_cons. simpl. apply IH.
    - rewrite all_space_cons in Hl'. apply andb_true_iff in Hl' as [Hd Hl'].
      rewrite (app_cons d).
      change (remove_from (String c ref') (String d (l' ++ String c ref' ++ r)) 0)
        with (if String.prefix (String c ref') (String d (l' ++ String c ref' ++ r))
              then remove_from (String c ref') (l' ++ String c ref' ++ r)
                     (String.length (String c ref') - 1)
              else String d (remove_from (String c ref')
                               (l' ++ String c ref' ++ r) 0)).
      assert (Hpre : String.prefix (String c ref')
                       (String d (l' ++ String c ref' ++ r)) = false).
      { simpl. destruct (ascii_dec c d) as [->|]; [congruence|reflexivity]. }
      rewrite Hpre. now rewrite (IH Hl'). }
  rewrite (Hscan l Hl).
  assert (Hrest : all_space (remove_from (String c ref') r 0) = true).
  { clear Hscan. induction r as [|d r IH]; [reflexivity|].
    rewrite all_space_cons in Hr. apply andb_true_iff in Hr as [Hd Hr].
    change (remove_from (String c ref') (String d r) 0)
      with (if String.prefix (String c ref') (String d r)
            then remove_from (String c ref') r (String.length (String c ref') - 1)
            else String d (remove_from (String c ref') r 0)).
    assert (Hpre : String.prefix (String c ref') (String d r) = false).
    { simpl. destruct (ascii_dec c d) as [->|]; [congruence|reflexivity]. }
    rewrite Hpre, all_space_cons, Hd. now apply IH. }
  apply strip_all_space.
  revert Hl Hrest. generalize (remove_from (String c ref') r 0). clear.
  induction l as [|d l IH]; intros s Hl Hs; rewrite ?app_cons, ?app_empty; auto.
  rewrite all_space_cons in *. apply andb_true_iff in Hl as [-> Hl]. now apply IH.
Qed.

(** X8. When the content is nothing but the reference the extractor
    returned, the handler's query is the default text. *)
Theorem reference_only_content_default_query
    (ref : string) (w : world) (c : content) (w' : world) :
  extract_file_reference E ref = Return (Some ref) ->
  trimmed ref ->
  resolve_content E ref w = (Return c, w') ->
  ref <> "" ->
  exists r, c = CRec r /\ c_file_ref r = ref
            /\ c_query r = "Please process this content".
Proof.
  intros Hext [Hstart _] H Hne.
  unfold resolve_content in H. revert H. run_monad. rewrite Hext.
  apply truthy_nonempty in Hne as Htr. rewrite Htr.
  destruct (get_file_path E ref Files) as [path|e]; [|discriminate].
  destruct (is_url E ref) as [b|e]; [|discriminate].
  intros [= <- _]. eexists. split; [reflexivity|]. split; [reflexivity|].
  cbn.
  assert (Hrest : strip (remove_all ref ("" ++ ref ++ "")) = "").
  { apply remove_all_only_reference; auto.
    intros c ref' ->. exact Hstart. }
  rewrite app_empty in Hrest.
  assert (Happ : forall s : string, s ++ "" = s).
  { induction s as [|x s IH]; [reflexivity|]. now rewrite app_cons, IH. }
  rewrite Happ in Hrest. now rewrite Hrest.
Qed.

End ContentRecord.

(** ** Downloading *)

Section Downloading.

Import PyStr PyStrFacts ParserFacts.

Variable E : Env.




(** X9. [download] rejects an empty URL without asking the URL
    predicate, and rejects a URL that the predicate refuses; the world is
    unchanged.  Through the dispatcher, when the extractor finds no
    reference in the content, such a query gets the error envelope with
    the validation message. *)
Theorem download_rejects_non_url :
  (forall c ctx w,
      let url := match c with CStr s => s | CRec r => c_file_ref r end in
      url = "" \/ is_url E url = Return false ->
      _download_content E c ctx w
      = (Raise (ValueError "Valid URL is required for download operation"), w))
  /\ (forall q text ref ctx w,
         _parse_query q w = (Return ("download", text), w) ->
         extract_file_reference E text = Return ref ->
         ref_truthy ref = false ->
         text = "" \/ is_url E text = Return false ->
         process E q ctx w
         = (exception_envelope q
              (ValueError "Valid URL is required for download operation"), w)).
Proof.
  assert (Hhandler : forall c ctx w,
             let url := match c with CStr s => s | CRec r => c_file_ref r end in
             url = "" \/ is_url E url = Return false ->
             _download_content E c ctx w
             = (Raise (ValueError "Valid URL is required for download operation"), w)).
  { intros c ctx w url Hurl.
    unfold _download_content, download_url_invalid. run_monad. fold url.
    destruct Hurl as [-> | Hurl]; [reflexivity|].
    destruct (truthy url); cbn [negb]; [now rewrite Hurl|reflexivity]. }
  split; [exact Hhandler|].
  intros q text ref ctx w Hp Hext Href Hurl.
  eapply (process_handler_raised E q ctx w "download" text (_download_content E)).
  - exact Hp.
  - reflexivity.
  - now apply (resolve_content_plain E _ w ref).
  - now apply (Hhandler (CStr text)).
Qed.


End Downloading.

(** X9 on the query [download: not_a_url]. *)
Lemma download_rejects_non_url_witness :
  process (Demo.env_without_references tick_clock) "download: not_a_url" None
    Demo.w0
  = (exception_envelope "download: not_a_url"
       (ValueError "Valid URL is required for download operation"), Demo.w0).
Proof.
  exact (proj2 (download_rejects_non_url (Demo.env_without_references tick_clock))
           "download: not_a_url" "not_a_url" None None Demo.w0
           eq_refl eq_refl eq_refl (or_intror eq_refl)).
Defined.


(** ** Saving, in general *)

Section SavingInGeneral.

Import PyStr PyStrFacts ParserFacts.

Variable E : Env.

Lemma ends_clean_app_r (a b : string) :
  ends_clean (a ++ b) -> b <> "" -> ends_clean b.
Proof.
  intros H Hb. induction a as [|c a IH]; [exact H|].
  apply IH. rewrite app_cons in H.
  destruct (a ++ b) as [|d s] eqn:Hab; [|exact H].
  destruct a; [rewrite app_empty in Hab; congruence|discriminate Hab].
Qed.

Lemma lstrip_keeps_end b :
  ends_clean b -> b <> "" -> lstrip b <> "" /\ ends_clean (lstrip b).
Proof.
  induction b as [|c b IH]; [congruence|]. intros H _.
  destruct b as [|d b].
  - simpl in *. rewrite H. split; [discriminate|exact H].
  - change (lstrip (String c (String d b)))
      with (if is_space c then lstrip (String d b) else String c (String d b)).
    destruct (is_space c); [apply IH; [exact H|discriminate]|].
    split; [discriminate|exact H].
Qed.

Lemma strip_nonempty b : ends_clean b -> b <> "" -> strip b <> "".
Proof.
  intros H Hb. destruct (lstrip_keeps_end b H Hb) as [Hne Hclean].
  unfold strip. now rewrite (rstrip_clean _ Hclean).
Qed.

Lemma save_parts_str s w a b w1 :
  save_parts (CStr s) w = (Return (a, b), w1) ->
  s = a ++ ":" ++ b /\ contains_char ":" a = false.
Proof.
  unfold save_parts.
  destruct (contains_char ":" s) eqn:Hs; cbn [negb]; [|discriminate].
  destruct (contains_char_split _ _ Hs) as (pre & post & -> & Hpre).
  rewrite (split1_first _ _ _ Hpre). now intros [= <- <- _].
Qed.

(** What [_save_file] did when it returns. *)
Lemma save_file_return c ctx w r w' :
  _save_file E c ctx w = (Return r, w') ->
  exists filename file_content path,
    save_parts c w = (Return (filename, file_content), w)
    /\ filename <> "" /\ file_content <> ""
    /\ get_file_path E (strip filename) Files = Return path
    /\ files w' = <[path := strip file_content]> (files w)
    /\ ticks w' = ticks w
    /\ dict_get "file_path" (extra r) = Some (VStr path)
    /\ dict_get "size" (extra r)
       = Some (VInt (Z.of_nat (String.length (strip file_content)))).
Proof.
  unfold _save_file. intros H.
  apply bind_return_inv in H as ([filename file_content] & w1 & Hparts & H).
  pose proof (save_parts_world _ _ _ _ Hparts) as ->.
  destruct (truthy filename) eqn:Hn; [|discriminate H].
  destruct (truthy file_content) eqn:Hb; [|discriminate H].
  cbn [negb orb] in H. revert H. run_monad.
  destruct (get_file_path E (strip filename) Files) as [path|e] eqn:Hpath;
    [|discriminate].
  destruct (write_refused E path); [discriminate|].
  intros [= <- <-]. exists filename, file_content, path.
  repeat split; auto; intros ->; discriminate.
Qed.

Lemma parsed_content_trimmed q w operation text :
  _parse_query q w = (Return (operation, text), w) -> trimmed text.
Proof.
  intros Hp.
  destruct (parse_query_cases _ _ _ _ Hp)
    as [(_ & _ & ->)|(pre & post & _ & _ & _ & ->)]; apply strip_trimmed.
Qed.

(** X11. A [save] query that succeeds stores a text that is not empty
    and has no white space at either end; reading the reported path back
    gives that text, and the reported size is its length.  The text is
    the trimmed part after the first colon of the content, stored under
    the trimmed part before it, or, when step 4 built a record, the
    record's query stored under its file reference. *)
Theorem save_round_trip
    (q : string) (ctx : context) (w : world) (text : string)
    (v : pyval) (w' : world) :
  _parse_query q w = (Return ("save", text), w) ->
  process E q ctx w = (v, w') ->
  envelope_field "status" v = Some (VStr "success") ->
  exists name path stored,
    get_file_path E (strip name) Files = Return path
    /\ files w' = <[path := stored]> (files w)
    /\ files w' !! path = Some stored
    /\ stored <> ""
    /\ trimmed stored
    /\ result_field "file_path" v = Some (VStr path)
    /\ result_field "size" v = Some (VInt (Z.of_nat (String.length stored)))
    /\ ((exists body, text = name ++ ":" ++ body
                      /\ contains_char ":" name = false
                      /\ stored = strip body)
        \/ (exists r, resolve_content E text w = (Return (CRec r), w)
                      /\ name = c_file_ref r /\ stored = c_query r)).
Proof.
  intros Hp. unfold process. intros Hproc Hstatus.
  destruct (process_try E q ctx w) as [[v0|e] w0] eqn:Htry;
    injection Hproc as <- <-; [|discriminate Hstatus].
  apply process_try_return in Htry
    as (operation & text' & Hp'
        & [(_ & -> & _)|(h & c & r & now & w1 & w2 & Hl & Hc & Hh & Ht & ->)]);
    [discriminate Hstatus|].
  rewrite Hp in Hp'. injection Hp' as <- <-.
  injection Hl as <-.
  destruct (resolve_content_record E _ _ _ _ Hc) as [-> Hshape].
  apply save_file_return in Hh
    as (filename & file_content & path & Hparts & Hn & Hb & Hpath & Hfiles
        & _ & Hfp & Hsize).
  unfold time_strftime in Ht. injection Ht as _ <-. cbn [files].
  assert (Hstored : exists stored,
             stored = strip file_content /\ stored <> "" /\ trimmed stored
             /\ ((exists body, text = filename ++ ":" ++ body
                               /\ contains_char ":" filename = false
                               /\ stored = strip body)
                 \/ (exists r0, resolve_content E text w = (Return (CRec r0), w)
                                /\ filename = c_file_ref r0
                                /\ stored = c_query r0))).
  { exists (strip file_content). split; [reflexivity|].
    destruct Hshape as [[-> _]|(r0 & -> & _ & _ & _ & _ & Hq & Htrim & _)].
    - apply save_parts_str in Hparts as [Htext Hname].
      split; [|split; [apply strip_trimmed|left; eauto]].
      apply strip_nonempty; [|exact Hb].
      destruct (parsed_content_trimmed _ _ _ _ Hp) as [_ Hend].
      rewrite Htext in Hend.
      apply ends_clean_app_r in Hend; [|discriminate].
      apply (ends_clean_app_r ":" file_content Hend Hb).
    - unfold save_parts in Hparts. injection Hparts as <- <-.
      rewrite (strip_of_trimmed _ Htrim).
      split; [exact Hq|]. split; [exact Htrim|]. right. eauto. }
  destruct Hstored as (stored & Heq & Hne & Htrim & Hwhat).
  exists filename, path, stored. rewrite Hfiles, <- Heq, lookup_insert_eq.
  repeat split; auto; try apply Htrim.
  rewrite Heq, <- Hsize. reflexivity.
Qed.

(** X12. The handler checks the two parts before it trims them: for a
    string [name:body] whose body is white space only, [_save_file]
    accepts the body and, the write being accepted, stores the empty
    text and reports size 0. *)
Theorem save_blank_body_writes_empty_file
    (name body : string) (ctx : context) (w : world) (path : string) :
  contains_char ":" name = false ->
  name <> "" -> body <> "" ->
  all_space body = true ->
  get_file_path E (strip name) Files = Return path ->
  write_refused E path = None ->
  exists r,
    _save_file E (CStr (name ++ ":" ++ body)) ctx w
    = (Return r, {| files := <[path := ""]> (files w); ticks := ticks w |})
    /\ dict_get "size" (extra r) = Some (VInt 0).
Proof.
  intros Hname Hn Hb Hspace Hpath Hw.
  rewrite (save_file_written E name body ctx w path Hname)
    by (auto; now apply truthy_nonempty).
  rewrite (strip_all_space _ Hspace). eexists. split; reflexivity.
Qed.

End SavingInGeneral.

(** X11 on the query [save: notes.txt:  buy milk]. *)
Lemma save_round_trip_witness :
  let E := Demo.env_without_references tick_clock in
  let run := process E "save: notes.txt:  buy milk" None Demo.w0 in
  exists name path stored,
    get_file_path E (PyStr.strip name) Files = Return path
    /\ files (snd run) = <[path := stored]> (files Demo.w0)
    /\ files (snd run) !! path = Some stored
    /\ stored <> ""
    /\ trimmed stored
    /\ result_field "file_path" (fst run) = Some (VStr path)
    /\ result_field "size" (fst run)
       = Some (VInt (Z.of_nat (String.length stored)))
    /\ ((exists body, "notes.txt:  buy milk" = name ++ ":" ++ body
                      /\ PyStr.contains_char ":" name = false
                      /\ stored = PyStr.strip body)
        \/ (exists r, resolve_content E "notes.txt:  buy milk" Demo.w0
                      = (Return (CRec r), Demo.w0)
                      /\ name = c_file_ref r /\ stored = c_query r)).
Proof.
  cbv zeta.
  apply (save_round_trip (Demo.env_without_references tick_clock)
           "save: notes.txt:  buy milk" None Demo.w0 "notes.txt:  buy milk"
           _ _ eq_refl (surjective_pairing _)).
  vm_compute. reflexivity.
Defined.

(** X12 on the string [a.txt: ] with the blank kept. *)
Lemma save_blank_body_writes_empty_file_witness :
  exists r,
    _save_file (Demo.env tick_clock) (CStr ("a.txt" ++ ":" ++ " ")) None Demo.w0
    = (Return r, {| files := <["/data/files/a.txt" := ""]> (files Demo.w0);
                    ticks := ticks Demo.w0 |})
    /\ dict_get "size" (extra r) = Some (VInt 0).
Proof.
  apply (save_blank_body_writes_empty_file (Demo.env tick_clock) "a.txt" " "
           None Demo.w0 "/data/files/a.txt" eq_refl);
    [discriminate|discriminate|reflexivity|reflexivity|reflexivity].
Defined.

(** ** File names that do not depend on the call *)

Section FixedNames.

Import PyStr PyStrFacts ParserFacts.

Variable E : Env.

Lemma process_text_run c ctx w path :
  get_file_path E "processed_text.txt" Temp = Return path ->
  write_refused E path = None ->
  exists r stored,
    _process_text E c ctx w
    = (Return r, {| files := <[path := stored]> (files w);
                    ticks := S (ticks w) |})
    /\ dict_get "temp_file" (extra r) = Some (VStr path).
Proof.
  intros H Hw. unfold _process_text. run_monad. rewrite H, Hw.
  eexists _, _. split; reflexivity.
Qed.

Lemma analyze_data_run c ctx w path :
  get_file_path E "analysis_results.txt" Files = Return path ->
  write_refused E path = None ->
  exists r stored,
    _analyze_data E c ctx w
    = (Return r, {| files := <[path := stored]> (files w);
                    ticks := S (ticks w) |})
    /\ dict_get "results_file" (extra r) = Some (VStr path).
Proof.
  intros H Hw. unfold _analyze_data.
  destruct (content_source c) as [[source query] is_remote].
  run_monad. rewrite H, Hw. eexists _, _. split; reflexivity.
Qed.

(** One [process] or [analyze] call through the dispatcher. *)
Lemma fixed_name_call q ctx w operation text :
  never_raises E ->
  writes_output E operation (ticks w) ->
  _parse_query q w = (Return (operation, text), w) ->
  operation = "process" \/ operation = "analyze" ->
  exists v w' path stored,
    process E q ctx w = (v, w')
    /\ envelope_field "status" v = Some (VStr "success")
    /\ (if String.eqb operation "process"
        then get_file_path E "processed_text.txt" Temp
        else get_file_path E "analysis_results.txt" Files) = Return path
    /\ result_field (if String.eqb operation "process"
                     then "temp_file" else "results_file") v
       = Some (VStr path)
    /\ files w' = <[path := stored]> (files w).
Proof.
  intros Hnr Hwr Hp Hop.
  destruct (resolve_content_returns E text w Hnr) as [c Hc].
  destruct Hnr as (Hpath & _ & _).
  destruct Hop as [-> | ->].
  - destruct (Hpath "processed_text.txt" Temp) as [path Hg].
    destruct (process_text_run c ctx w path Hg (Hwr path Hg))
      as (r & stored & Hrun & Hf).
    exists (success_envelope "process" r (strftime E (clock E (S (ticks w))))).
    eexists _, path, stored. split.
    { exact (process_handled E q ctx w "process" text (_process_text E) c w r _
               Hp eq_refl Hc Hrun). }
    repeat split; auto.
  - destruct (Hpath "analysis_results.txt" Files) as [path Hg].
    destruct (analyze_data_run c ctx w path Hg (Hwr path Hg))
      as (r & stored & Hrun & Hf).
    exists (success_envelope "analyze" r (strftime E (clock E (S (ticks w))))).
    eexists _, path, stored. split.
    { exact (process_handled E q ctx w "analyze" text (_analyze_data E) c w r _
               Hp eq_refl Hc Hrun). }
    repeat split; auto.
Qed.

(** X13. [process] and [analyze] write to a path that is the same for
    every call: with collaborators that return and a file system that
    accepts the write at that path, two consecutive calls of
    one of them, with any two queries and contexts, report the same path
    and the second text replaces the first, so that after both calls the
    files are those before the first call with the second text alone. *)
Theorem fixed_name_overwritten
    (q1 q2 : string) (ctx1 ctx2 : context) (w : world)
    (operation text1 text2 : string) :
  never_raises E ->
  writes_output E operation (ticks w) ->
  operation = "process" \/ operation = "analyze" ->
  _parse_query q1 w = (Return (operation, text1), w) ->
  _parse_query q2 w = (Return (operation, text2), w) ->
  exists v1 w1 v2 w2 key path stored1 stored2,
    process E q1 ctx1 w = (v1, w1)
    /\ process E q2 ctx2 w1 = (v2, w2)
    /\ In key path_keys
    /\ result_field key v1 = Some (VStr path)
    /\ result_field key v2 = Some (VStr path)
    /\ files w1 = <[path := stored1]> (files w)
    /\ files w2 = <[path := stored2]> (files w).
Proof.
  intros Hnr Hwr Hop Hp1 Hp2.
  assert (Hwr' : forall tick, writes_output E operation tick)
    by (intros tick; destruct Hop as [-> | ->]; exact Hwr).
  destruct (fixed_name_call q1 ctx1 w operation text1 Hnr Hwr Hp1 Hop)
    as (v1 & w1 & path1 & s1 & Hrun1 & _ & Hg1 & Hf1 & Hw1).
  pose proof (parse_query_any_world q2 w _ w1 Hp2) as Hp2'.
  destruct (fixed_name_call q2 ctx2 w1 operation text2 Hnr (Hwr' _) Hp2' Hop)
    as (v2 & w2 & path2 & s2 & Hrun2 & _ & Hg2 & Hf2 & Hw2).
  assert (path2 = path1) as -> by congruence.
  exists v1, w1, v2, w2,
    (if String.eqb operation "process" then "temp_file" else "results_file"),
    path1, s1, s2.
  repeat split; eauto.
  - destruct Hop as [-> | ->]; unfold path_keys; simpl; auto.
  - rewrite Hw2, Hw1. apply insert_insert_eq.
Qed.

(** X14. The names that [generate] and [extract] stamp depend on the
    clock reading alone: two runs of one of these handlers whose first
    clock readings agree return, whatever their contents and contexts,
    with the same output file, each having stored its text at that one
    path, when the file system accepts the write there. *)
Theorem same_second_same_file
    (operation : string) (handle : handler) (ca cb : content)
    (ctxa ctxb : context) (wa wb : world) (path : string) :
  operation = "generate" \/ operation = "extract" ->
  lookup_operation operation (supported_operations E) = Some handle ->
  clock E (ticks wa) = clock E (ticks wb) ->
  get_file_path E
    (stamp_stem operation ++ str_int (clock E (ticks wa)) ++ ".txt") Files
  = Return path ->
  write_refused E path = None ->
  exists ra rb stored_a stored_b,
    handle ca ctxa wa
    = (Return ra, {| files := <[path := stored_a]> (files wa);
                     ticks := S (S (ticks wa)) |})
    /\ handle cb ctxb wb
       = (Return rb, {| files := <[path := stored_b]> (files wb);
                        ticks := S (S (ticks wb)) |})
    /\ dict_get "output_file" (extra ra) = Some (VStr path)
    /\ dict_get "output_file" (extra rb) = Some (VStr path).
Proof.
  intros Hop Hl Hclock Hpath Hw.
  destruct Hop as [-> | ->]; injection Hl as <-.
  - destruct (generate_content_run E ca ctxa wa path Hpath Hw)
      as (ra & ta & Ha & Hfa).
    rewrite Hclock in Hpath.
    destruct (generate_content_run E cb ctxb wb path Hpath Hw)
      as (rb & tb & Hb & Hfb).
    now exists ra, rb, ta, tb.
  - destruct (extract_info_run E ca ctxa wa path Hpath Hw)
      as (ra & ta & Ha & Hfa).
    rewrite Hclock in Hpath.
    destruct (extract_info_run E cb ctxb wb path Hpath Hw)
      as (rb & tb & Hb & Hfb).
    now exists ra, rb, ta, tb.
Qed.

End FixedNames.

(** X13 on two [analyze] queries. *)
Lemma fixed_name_overwritten_witness :
  let E := Demo.env tick_clock in
  exists v1 w1 v2 w2 key path stored1 stored2,
    process E "analyze: sales of May" None Demo.w0 = (v1, w1)
    /\ process E "analyze: sales of June" None w1 = (v2, w2)
    /\ In key path_keys
    /\ result_field key v1 = Some (VStr path)
    /\ result_field key v2 = Some (VStr path)
    /\ files w1 = <[path := stored1]> (files Demo.w0)
    /\ files w2 = <[path := stored2]> (files Demo.w0).
Proof.
  exact (fixed_name_overwritten (Demo.env tick_clock)
           "analyze: sales of May" "analyze: sales of June" None None Demo.w0
           "analyze" "sales of May" "sales of June"
           (demo_never_raises tick_clock) ltac:(demo_writes)
           (or_intror eq_refl) eq_refl eq_refl).
Defined.

(** X14 on two [generate] runs in the same second. *)
Lemma same_second_same_file_witness :
  let E := Demo.env frozen_clock in
  let wb := {| files := files Demo.w0; ticks := 5 |} in
  let path := "/data/files/generated_1700000000.txt" in
  exists ra rb stored_a stored_b,
    _generate_content E (CStr "cats") None Demo.w0
    = (Return ra, {| files := <[path := stored_a]> (files Demo.w0);
                     ticks := S (S (ticks Demo.w0)) |})
    /\ _generate_content E (CStr "dogs") None wb
       = (Return rb, {| files := <[path := stored_b]> (files wb);
                        ticks := S (S (ticks wb)) |})
    /\ dict_get "output_file" (extra ra) = Some (VStr path)
    /\ dict_get "output_file" (extra rb) = Some (VStr path).
Proof.
  exact (same_second_same_file (Demo.env frozen_clock) "generate"
           (_generate_content (Demo.env frozen_clock)) (CStr "cats") (CStr "dogs")
           None None Demo.w0 {| files := files Demo.w0; ticks := 5 |}
           "/data/files/generated_1700000000.txt"
           (or_introl eq_refl) eq_refl eq_refl eq_refl eq_refl).
Defined.

(** ** Contexts that say nothing, and the dispatcher *)

Section ContextAtDispatch.

Import PyStr PyStrFacts ParserFacts.

Variable E : Env.

Lemma scan_context_silent probes ctx :
  context_silent probes ctx -> scan_context probes ctx = [].
Proof.
  unfold context_silent, scan_context. intros H.
  destruct (context_truthy ctx); [|reflexivity].
  generalize dependent (match ctx with Some d => d | None => [] end).
  intros modules H.
  induction modules as [|[module_name module_data] modules IH];
    [reflexivity|].
  cbn [flat_map fst snd]. rewrite IH by (intros; eapply H; [right|]; eauto).
  destruct module_data as [| | | | | |d]; try reflexivity.
  assert (Hin : forall key, In key probes -> dict_mem key d = false)
    by (intros; eapply H; [left; reflexivity|assumption]).
  clear - Hin. rewrite app_nil_r.
  induction probes as [|key probes IH]; [reflexivity|].
  cbn [flat_map]. rewrite (Hin key) by now left.
  apply IH. intros; apply Hin; now right.
Qed.

(** X15. A context in which no module's mapping has the key [content]
    or [metadata] changes nothing for [analyze] and [generate]: the
    result and the world are those of the run without a context.  The
    same holds for [extract] when no mapping has [answer] either.  Data
    that are not mappings, and keys other than these, are not looked
    at. *)
Theorem silent_context_ignored (c : content) (ctx : context) (w : world) :
  (context_silent ["content"; "metadata"] ctx ->
   _analyze_data E c ctx w = _analyze_data E c None w
   /\ _generate_content E c ctx w = _generate_content E c None w)
  /\ (context_silent ["content"; "metadata"; "answer"] ctx ->
      _extract_info E c ctx w = _extract_info E c None w).
Proof.
  split.
  - intros H. apply scan_context_silent in H. split.
    + unfold _analyze_data, analyze_summary. rewrite H.
      destruct (content_source c) as [[source query] is_remote].
      now destruct (context_truthy ctx).
    + unfold _generate_content, generate_enhancements. now rewrite H.
  - intros H. apply scan_context_silent in H.
    unfold _extract_info, extract_context_data. now rewrite H.
Qed.

(** Two runs of a handler of the table take the same course. *)
Lemma handlers_same_flow operation handle c ctx1 ctx2 w :
  lookup_operation operation (supported_operations E) = Some handle ->
  same_flow w (handle c ctx1 w) (handle c ctx2 w).
Proof.
  intros H.
  destruct (lookup_operation_cases E _ _ H) as [->|[->|[->|[->|[->| ->]]]]];
    auto using process_text_flow, analyze_data_flow, generate_content_flow,
      save_file_flow, download_content_flow, extract_info_flow.
Qed.

Lemma result_field_success k operation r now :
  result_field k (success_envelope operation r now) = dict_get k (result_dict r).
Proof. reflexivity. Qed.

(** Two calls with two contexts return the same pair, or two success
    envelopes for results that agree but for the annotations. *)
Lemma dispatch_cases q ctx1 ctx2 w :
  process E q ctx1 w = process E q ctx2 w
  \/ exists operation r1 r2 w1 w2,
       process E q ctx1 w
       = (success_envelope operation r1 (strftime E (clock E (ticks w1))),
          {| files := files w1; ticks := S (ticks w1) |})
       /\ process E q ctx2 w
          = (success_envelope operation r2 (strftime E (clock E (ticks w2))),
             {| files := files w2; ticks := S (ticks w2) |})
       /\ ticks w1 = ticks w2
       /\ output r1 = output r2
       /\ (forall k, ~ In k annotation_keys ->
                     dict_get k (extra r1) = dict_get k (extra r2)).
Proof.
  unfold process, process_try.
  destruct (parse_query_returns q w) as (operation & text & Hp).
  rewrite !(bind_return _ _ _ _ _ Hp).
  destruct (lookup_operation operation (supported_operations E))
    as [handle|] eqn:Hl; [|now left].
  destruct (resolve_content E text w) as [[c|e] w1] eqn:Hc;
    [|rewrite !(bind_raise _ _ _ _ _ Hc); now left].
  rewrite !(bind_return _ _ _ _ _ Hc).
  pose proof (resolve_content_world E _ _ _ _ Hc) as ->.
  pose proof (handlers_same_flow operation handle c ctx1 ctx2 w Hl) as Hflow.
  destruct (handle c ctx1 w) as [[r1|e1] w1] eqn:H1,
           (handle c ctx2 w) as [[r2|e2] w2] eqn:H2;
    unfold same_flow in Hflow; try contradiction.
  - destruct Hflow as (Hticks & _ & Hout & _ & Hfields).
    rewrite (bind_return _ _ _ _ _ H1), (bind_return _ _ _ _ _ H2).
    right. now exists operation, r1, r2, w1, w2.
  - destruct Hflow as [<- <-].
    rewrite (bind_raise _ _ _ _ _ H1), (bind_raise _ _ _ _ _ H2). now left.
Qed.

(** X16. The context does not change what the dispatcher answers: for
    one query and one world, two calls with any two contexts return
    envelopes with the same status and the same message, leave the same
    number of clock readings, and, on success, have the same
    [demo_result], [operation] and [timestamp] and the same result
    fields but for the annotations. *)
Theorem dispatch_ignores_context
    (q : string) (ctx1 ctx2 : context) (w : world) :
  let run1 := process E q ctx1 w in
  let run2 := process E q ctx2 w in
  envelope_field "status" (fst run1) = envelope_field "status" (fst run2)
  /\ envelope_field "message" (fst run1) = envelope_field "message" (fst run2)
  /\ ticks (snd run1) = ticks (snd run2)
  /\ (forall k, In k ["demo_result"; "operation"; "timestamp"] ->
        forall d1 d2, envelope_data (fst run1) = Some d1 ->
                      envelope_data (fst run2) = Some d2 ->
                      dict_get k d1 = dict_get k d2)
  /\ (forall k, ~ In k annotation_keys ->
        result_field k (fst run1) = result_field k (fst run2)).
Proof.
  cbv zeta.
  destruct (dispatch_cases q ctx1 ctx2 w)
    as [Heq|(operation & r1 & r2 & w1 & w2 & -> & -> & Hticks & Hout & Hfields)].
  - rewrite Heq. repeat split; auto. intros; congruence.
  - cbn [fst snd ticks]. rewrite Hticks.
    split; [reflexivity|]. split; [reflexivity|]. split; [reflexivity|].
    split.
    + intros k Hk d1 d2 [= <-] [= <-]. simpl in Hk.
      destruct Hk as [<-|[<-|[<-|[]]]]; cbn; now rewrite ?Hout.
    + intros k Hk. rewrite !result_field_success.
      unfold result_dict. cbn [dict_get].
      now rewrite Hout, (Hfields k Hk).
Qed.

(** X17. The descriptor of [get_capabilities] agrees with the
    dispatcher: the operations it lists are the six names, an operation
    is accepted by [process] exactly when it is listed, and each of the
    example queries it advertises parses to a listed operation. *)
Theorem capabilities_agree_with_dispatch :
  listed_strings "supported_operations" (get_capabilities E) = known_operations
  /\ (forall operation,
         In operation (listed_strings "supported_operations" (get_capabilities E))
         <-> exists handle,
               lookup_operation operation (supported_operations E) = Some handle)
  /\ (forall q w,
         In q (listed_strings "example_queries" (get_capabilities E)) ->
         exists operation text,
           _parse_query q w = (Return (operation, text), w)
           /\ In operation
                (listed_strings "supported_operations" (get_capabilities E))).
Proof.
  assert (Hlist : listed_strings "supported_operations" (get_capabilities E)
                  = known_operations) by reflexivity.
  split; [exact Hlist|]. split.
  - intros operation. rewrite Hlist. split.
    + apply lookup_operation_known.
    + intros [h Hh]. eapply lookup_operation_some; eauto.
  - intros q w Hq. rewrite Hlist.
    change (listed_strings "example_queries" (get_capabilities E))
      with ["process: Hello World"; "analyze: data.txt";
            "analyze: https://example.com/data.json";
            "generate: content about AI";
            "save: example.txt:This is content to save";
            "download: https://example.com/data.json";
            "extract: what topics are in document.txt"] in Hq.
    simpl in Hq.
    destruct Hq as [<-|[<-|[<-|[<-|[<-|[<-|[<-|[]]]]]]]];
      eexists _, _; (split; [reflexivity|unfold known_operations; simpl; auto 10]).
Qed.

End ContextAtDispatch.

(** ** Further instances on the concrete environment *)

(** X3 on the query [save: report.txt], with no reference found. *)
Lemma error_leaves_files_witness :
  files (snd (process (Demo.env_without_references tick_clock)
                "save: report.txt" None Demo.w0))
  = files Demo.w0.
Proof.
  apply (error_leaves_files (Demo.env_without_references tick_clock)
           "save: report.txt" None Demo.w0 _ _ (surjective_pairing _)).
  vm_compute. reflexivity.
Defined.

(** X4 on the query [extract: what topics are in document.txt]. *)
Lemma success_writes_one_file_witness :
  let run := process (Demo.env tick_clock)
               "extract: what topics are in document.txt" None Demo.w0 in
  exists key path text,
    In key path_keys
    /\ result_field key (fst run) = Some (VStr path)
    /\ files (snd run) = <[path := text]> (files Demo.w0)
    /\ trimmed text
    /\ ticks Demo.w0 < ticks (snd run) <= ticks Demo.w0 + 3.
Proof.
  cbv zeta.
  apply (success_writes_one_file (Demo.env tick_clock)
           "extract: what topics are in document.txt" None Demo.w0 _ _
           (surjective_pairing _)).
  vm_compute. reflexivity.
Defined.

(** X5 on the empty query. *)
Lemma unvalidated_operations_succeed_witness :
  envelope_field "status" (fst (process (Demo.env tick_clock) "" None Demo.w0))
  = Some (VStr "success").
Proof.
  apply (unvalidated_operations_succeed (Demo.env tick_clock) "" None Demo.w0
           "process" "" (demo_never_raises tick_clock) ltac:(demo_writes)
           eq_refl).
  unfold unvalidated_operations. simpl. auto.
Defined.

(** X6 on the query [download: https://example.com/..], whose file name
    is [..]: the write is refused after one clock reading. *)
Lemma error_kinds_witness :
  let E := Demo.env tick_clock in
  let q := "download: https://example.com/.." in
  let run := process E q None Demo.w0 in
  envelope_field "status" (fst run) = Some (VStr "error")
  /\ ticks (snd run) = 1
  /\ files (snd run) = files Demo.w0
  /\ exists operation content_text,
       _parse_query q Demo.w0 = (Return (operation, content_text), Demo.w0)
       /\ ((~ In operation known_operations
            /\ fst run = unsupported_envelope E operation /\ snd run = Demo.w0)
           \/ (operation = "save"
               /\ (fst run
                   = exception_envelope q
                       (ValueError "Save operation requires format: filename:content")
                   \/ fst run
                      = exception_envelope q
                          (ValueError "Both filename and content are required"))
               /\ snd run = Demo.w0)
           \/ (operation = "download"
               /\ fst run
                  = exception_envelope q
                      (ValueError "Valid URL is required for download operation")
               /\ snd run = Demo.w0)
           \/ (In operation known_operations
               /\ exists path e,
                    write_refused E path = Some e
                    /\ fst run = exception_envelope q e)).
Proof.
  cbv zeta.
  assert (Hstatus : envelope_field "status"
                      (fst (process (Demo.env tick_clock)
                              "download: https://example.com/.." None Demo.w0))
                    = Some (VStr "error")) by (vm_compute; reflexivity).
  split; [exact Hstatus|]. split; [vm_compute; reflexivity|].
  exact (error_kinds (Demo.env tick_clock) "download: https://example.com/.."
           None Demo.w0 _ _ (demo_never_raises tick_clock)
           (surjective_pairing _) Hstatus).
Defined.

(** X7 on the content [what topics are in document.txt]. *)
Lemma resolve_content_record_witness :
  let E := Demo.env tick_clock in
  let text := "what topics are in document.txt" in
  exists c w',
    resolve_content E text Demo.w0 = (Return c, w')
    /\ w' = Demo.w0
    /\ ((c = CStr text
         /\ exists ref, extract_file_reference E text = Return ref
                        /\ ref_truthy ref = false)
        \/ (exists r,
               c = CRec r
               /\ extract_file_reference E text = Return (Some (c_file_ref r))
               /\ c_file_ref r <> ""
               /\ get_file_path E (c_file_ref r) Files = Return (c_file_path r)
               /\ is_url E (c_file_ref r) = Return (c_is_url r)
               /\ c_query r <> ""
               /\ trimmed (c_query r)
               /\ (PyStr.strip (PyStr.remove_all (c_file_ref r) text) <> "" ->
                   c_query r
                   = PyStr.strip (PyStr.remove_all (c_file_ref r) text)))).
Proof.
  cbv zeta.
  assert (H : exists c w',
             resolve_content (Demo.env tick_clock)
               "what topics are in document.txt" Demo.w0 = (Return c, w'))
    by (vm_compute; eexists _, _; reflexivity).
  destruct H as (c & w' & H). exists c, w'. split; [exact H|].
  exact (resolve_content_record (Demo.env tick_clock) _ Demo.w0 c w' H).
Defined.

(** X8 on the content [data.txt]. *)
Lemma reference_only_content_default_query_witness :
  exists c w' r,
    resolve_content (Demo.env tick_clock) "data.txt" Demo.w0 = (Return c, w')
    /\ c = CRec r /\ c_file_ref r = "data.txt"
    /\ c_query r = "Please process this content".
Proof.
  assert (H : exists c w',
             resolve_content (Demo.env tick_clock) "data.txt" Demo.w0
             = (Return c, w'))
    by (vm_compute; eexists _, _; reflexivity).
  destruct H as (c & w' & H).
  destruct (reference_only_content_default_query (Demo.env tick_clock)
              "data.txt" Demo.w0 c w' eq_refl (conj eq_refl eq_refl) H)
    as (r & Hc & Href & Hq); [discriminate|].
  now exists c, w', r.
Defined.

(** X15 on a context whose one module has an [answer] only. *)
Lemma silent_context_ignored_witness :
  let E := Demo.env tick_clock in
  let ctx := Some [("qa", VDict [("answer", VStr "42")]); ("n", VInt 7)] in
  _analyze_data E (CStr "sales") ctx Demo.w0
  = _analyze_data E (CStr "sales") None Demo.w0
  /\ _generate_content E (CStr "sales") ctx Demo.w0
     = _generate_content E (CStr "sales") None Demo.w0.
Proof.
  cbv zeta.
  apply (proj1 (silent_context_ignored (Demo.env tick_clock) (CStr "sales")
                  (Some [("qa", VDict [("answer", VStr "42")]); ("n", VInt 7)])
                  Demo.w0)).
  intros module_name module_data key [[= <- <-]|[[=]|[]]] [<-|[<-|[]]];
    reflexivity.
Defined.

(** X16 on the query [generate: content about AI], without a context
    and with one. *)
Lemma dispatch_ignores_context_witness :
  let E := Demo.env tick_clock in
  let q := "generate: content about AI" in
  let ctx := Some [("reader", VDict [("content", VStr "text")])] in
  envelope_field "status" (fst (process E q None Demo.w0))
  = envelope_field "status" (fst (process E q ctx Demo.w0))
  /\ result_field "output_file" (fst (process E q None Demo.w0))
     = result_field "output_file" (fst (process E q ctx Demo.w0)).
Proof.
  cbv zeta.
  destruct (dispatch_ignores_context (Demo.env tick_clock)
              "generate: content about AI" None
              (Some [("reader", VDict [("content", VStr "text")])]) Demo.w0)
    as (Hstatus & _ & _ & _ & Hfields).
  split; [exact Hstatus|]. apply Hfields.
  unfold annotation_keys. simpl. intuition discriminate.
Defined.

(** X17 on the example query [save: example.txt:This is content to
    save]. *)
Lemma capabilities_agree_with_dispatch_witness :
  let E := Demo.env tick_clock in
  exists operation text,
    _parse_query "save: example.txt:This is content to save" Demo.w0
    = (Return (operation, text), Demo.w0)
    /\ In operation
         (listed_strings "supported_operations" (get_capabilities E)).
Proof.
  cbv zeta.
  apply (proj2 (proj2 (capabilities_agree_with_dispatch (Demo.env tick_clock)))).
  simpl. auto 10.
Defined.

(** ** What the handlers do not read *)

Section Unread.

Import PyStr PyStrFacts ParserFacts.

Variable E : Env.


(** X19. No handler uses the path that step 4 resolves for the file
    reference: two records that differ in [file_path] alone give the
    same run. *)
Theorem record_file_path_unused
    (operation : string) (handle : handler) (r : content_record)
    (other_path : string) (ctx : context) (w : world) :
  lookup_operation operation (supported_operations E) = Some handle ->
  handle (CRec r) ctx w
  = handle (CRec {| c_file_ref := c_file_ref r;
                    c_file_path := other_path;
                    c_is_url := c_is_url r;
                    c_query := c_query r |}) ctx w.
Proof.
  intros Hl.
  destruct (lookup_operation_cases E _ _ Hl) as [->|[->|[->|[->|[->| ->]]]]];
    reflexivity.
Qed.

End Unread.


(** X19 on [_save_file]. *)
Lemma record_file_path_unused_witness :
  let E := Demo.env tick_clock in
  let r := {| c_file_ref := "a.txt"; c_file_path := "/data/files/a.txt";
              c_is_url := false; c_query := "hello" |} in
  _save_file E (CRec r) None Demo.w0
  = _save_file E (CRec {| c_file_ref := c_file_ref r;
                          c_file_path := "/elsewhere";
                          c_is_url := c_is_url r;
                          c_query := c_query r |}) None Demo.w0.
Proof.
  exact (record_file_path_unused (Demo.env tick_clock) "save"
           (_save_file (Demo.env tick_clock))
           {| c_file_ref := "a.txt"; c_file_path := "/data/files/a.txt";
              c_is_url := false; c_query := "hello" |}
           "/elsewhere" None Demo.w0 eq_refl).
Defined.
